(** * Order lifecycle and access-scoped queries of the food-ordering backend

    A shallow embedding of the Express route handlers of
    [src/routers/order.router.js] and of the registration route of
    [src/routers/user.router.js], over an explicit model of the two
    document collections they read and write, followed by the properties
    the specification states about them.

    Handlers are written in a small state-and-exception monad: the state
    is the document store together with the response object [res] of the
    request being served, an exception is a JavaScript [throw] (or a
    rejected promise reaching the end of an [await]). *)

From Stdlib Require Import ZArith NArith String Ascii List Lia.
From stdpp Require Import base decidable option list strings sorting.

Local Open Scope string_scope.
Local Open Scope Z_scope.

(** ** Constants *)

(** Modelled from the spec: [constants/httpStatus.js] is imported by the
    routers but is not among the sources; the route documentation in
    [order.router.js] gives 400 for the bad-request answers and 401 for
    "Unauthorized access". *)
Definition BAD_REQUEST : Z := 400.
Definition UNAUTHORIZED : Z := 401.

(** Modelled from the spec: [constants/orderStatus.js] is imported but is
    not among the sources. The specification lists the values observed:
    NEW, PAID, FAILED, and the spelling PAYED used by one code path. *)
Module OrderStatus.
Definition NEW : string := "NEW".
Definition PAID : string := "PAID".
Definition PAYED : string := "PAYED".
Definition FAILED : string := "FAILED".
End OrderStatus.

Definition PASSWORD_HASH_SALT_ROUNDS : nat := 10.

(** ** JavaScript values read from a JSON body, and their truthiness *)

Inductive JsValue :=
| JUndefined
| JNull
| JBool (b : bool)
| JNum (n : Z)
| JStr (s : string)
| JObject.

Definition truthy (v : JsValue) : bool :=
  match v with
  | JUndefined | JNull => false
  | JBool b => b
  | JNum n => negb (n =? 0)
  | JStr s => negb (String.eqb s "")
  | JObject => true
  end.

(** An optional route parameter ([req.params.status]): absent, or a string;
    the empty string is falsy. *)
Definition truthy_param (p : option string) : bool :=
  match p with
  | Some s => negb (String.eqb s "")
  | None => false
  end.

(** [String.prototype.toLowerCase] on the code units this model has
    (8-bit characters): the letters A-Z are mapped to a-z. *)
Definition lower_ascii (c : ascii) : ascii :=
  let n := nat_of_ascii c in
  if (Nat.leb 65 n && Nat.leb n 90)%bool then ascii_of_nat (n + 32) else c.

Fixpoint toLowerCase (s : string) : string :=
  match s with
  | EmptyString => EmptyString
  | String c s' => String (lower_ascii c) (toLowerCase s')
  end.

(** ** Documents *)

(** Document identifiers (ObjectIds), already cast from the route
    parameter or token field that carried them. *)
Abbreviation ObjectId := N.

Record OrderItem := mkOrderItem {
  food : string;
  quantity : Z;
  price : Z
}.

#[global] Instance OrderItem_eq_dec : EqDecision OrderItem.
Proof. solve_decision. Defined.

(** The password credential as stored: the result of [bcrypt.hash]. *)
Inductive PasswordHash :=
| Bcrypt (rounds : nat) (plain : string).

#[global] Instance PasswordHash_eq_dec : EqDecision PasswordHash.
Proof. solve_decision. Defined.

Module User.
Record doc := mk {
  _id : ObjectId;
  email : string;
  password : PasswordHash;
  name : string;
  address : string;
  isAdmin : bool;
  isBlocked : bool
}.

#[global] Instance user_doc_eq_dec : EqDecision doc.
Proof. solve_decision. Defined.
End User.

Module Order.
Record doc := mk {
  _id : ObjectId;
  items : list OrderItem;
  totalPrice : option Z;
  paymentId : option string;
  status : string;
  user : option ObjectId;
  createdAt : N
}.

#[global] Instance order_doc_eq_dec : EqDecision doc.
Proof. solve_decision. Defined.

Definition set_paymentId (v : option string) (o : doc) : doc :=
  mk (_id o) (items o) (totalPrice o) v (status o) (user o) (createdAt o).
Definition set_status (v : string) (o : doc) : doc :=
  mk (_id o) (items o) (totalPrice o) (paymentId o) v (user o) (createdAt o).

(** A query filter object: each key is either absent or constrains the
    field of the same name. *)
Record filter := mkFilter {
  f_id : option ObjectId;
  f_user : option ObjectId;
  f_status : option string
}.

Definition matches (f : filter) (o : doc) : bool :=
  match f_id f with Some i => bool_decide (_id o = i) | None => true end
  && match f_user f with Some u => bool_decide (user o = Some u) | None => true end
  && match f_status f with Some s => bool_decide (status o = s) | None => true end.
End Order.

(** The JSON body of a create request, as far as this development reads
    it: the item list, and the total, payment token, status and owner keys,
    each present or absent. Identifier and creation time are taken to be the
    store's to assign. *)
Record NewOrderBody := mkNewOrderBody {
  body_items : list OrderItem;
  body_totalPrice : option Z;
  body_paymentId : option string;
  body_status : option string;
  body_user : option ObjectId
}.

(** [{ ...order, user: v }] *)
Definition spread_with_user (order : NewOrderBody) (v : ObjectId) : NewOrderBody :=
  mkNewOrderBody (body_items order) (body_totalPrice order)
    (body_paymentId order) (body_status order) (Some v).

(** ** The caller: [req.user], the claims of the verified token *)

Record Claims := mkClaims {
  id : ObjectId;
  claim_email : string;
  claim_isAdmin : bool
}.

Record Request (P B : Type) := mkRequest {
  req_user : Claims;
  params : P;
  body : B
}.
Arguments mkRequest {P B}.
Arguments req_user {P B}.
Arguments params {P B}.
Arguments body {P B}.

(** ** Responses *)

Record TokenResponse := mkTokenResponse {
  tr_id : ObjectId;
  tr_email : string;
  tr_name : string;
  tr_address : string;
  tr_isAdmin : bool;
  token : Claims
}.

Inductive Body :=
| BEmpty
| BText (s : string)
| BNumber (n : Z)
| BOrder (o : Order.doc)
| BOrders (l : list Order.doc)
| BObjectId (i : ObjectId)
| BError (message : string)
| BSuccess (message : string) (data : Order.doc)
| BUser (u : TokenResponse).

Record Response := mkResponse {
  code : Z;
  payload : Body
}.

(** ** State and exceptions *)

Record Db := mkDb {
  users : list User.doc;
  orders : list Order.doc;
  next_id : ObjectId;
  now : N
}.

(** The response object: the status code set so far ([res.status]), and
    what has been sent, if anything. *)
Record Res := mkRes {
  statusCode : Z;
  sent : option Response
}.

Record State := mkState {
  db : Db;
  res : Res
}.

Definition fresh_res : Res := mkRes 200 None.

Inductive Exn :=
| ReferenceError (name : string)
| TypeError (what : string)
| CastError
| DuplicateKey
| ERR_HTTP_HEADERS_SENT.

Inductive Result (A : Type) :=
| Ok (a : A)
| Throw (e : Exn).
Arguments Ok {A}.
Arguments Throw {A}.

Definition M (A : Type) : Type := State -> Result A * State.

Definition ret {A} (a : A) : M A := fun s => (Ok a, s).

Definition bind {A B} (m : M A) (k : A -> M B) : M B :=
  fun s => match m s with
           | (Ok a, s') => k a s'
           | (Throw e, s') => (Throw e, s')
           end.

Definition throw {A} (e : Exn) : M A := fun s => (Throw e, s).

Definition try_catch {A} (m : M A) (h : Exn -> M A) : M A :=
  fun s => match m s with
           | (Ok a, s') => (Ok a, s')
           | (Throw e, s') => h e s'
           end.

Declare Scope handler_scope.
Delimit Scope handler_scope with handler.
Notation "x <- m ;; k" := (bind m (fun x => k))
  (at level 100, m at next level, right associativity) : handler_scope.
Notation "m ;; k" := (bind m (fun _ => k))
  (at level 100, right associativity) : handler_scope.
Local Open Scope handler_scope.

Definition get_db : M Db := fun s => (Ok (db s), s).
Definition put_db (d : Db) : M unit := fun s => (Ok tt, mkState d (res s)).

(** [res.status(c)] *)
Definition res_status (c : Z) : M unit :=
  fun s => (Ok tt, mkState (db s) (mkRes c (sent (res s)))).

(** [res.send(b)]: a second send on the same response throws. The answer
    recorded is the body handed to [send] with the status set through
    [res.status] by then; how Express renders a bare number handed to
    [send] is left to it. *)
Definition res_send (b : Body) : M unit :=
  fun s => match sent (res s) with
           | Some _ => (Throw ERR_HTTP_HEADERS_SENT, s)
           | None =>
             (Ok tt, mkState (db s)
                       (mkRes (statusCode (res s))
                              (Some (mkResponse (statusCode (res s)) b))))
           end.

(** ** The document store (the Mongoose models) *)

(** What a caller may hand to [findById]: an identifier, or, as one call
    site does, the request object itself, which does not cast to an
    identifier. *)
Inductive QueryId :=
| IdValue (i : ObjectId)
| RequestObject.

Module OrderModel.
Import Order.

(** Modelled from the spec: [models/order.model.js] is not among the
    sources. In the specification's words, a created order starts in status
    NEW; what the schema does with a [status] key of the object it is given
    is not in the sources. The constructor takes the items, total, payment
    token and owner from that object and draws a fresh identifier; the
    creation timestamp is the store's clock (the handlers save a new
    document as soon as it is built). *)
Definition new (o : NewOrderBody) : M doc :=
  d <- get_db ;;
  put_db (mkDb (users d) (orders d) (N.succ (next_id d)) (now d)) ;;
  ret (mk (next_id d) (body_items o) (body_totalPrice o) (body_paymentId o)
          OrderStatus.NEW (body_user o) (now d)).

Fixpoint write_back (o : doc) (l : list doc) : list doc :=
  match l with
  | [] => []
  | x :: l' => if bool_decide (_id x = _id o) then o :: l' else x :: write_back o l'
  end.

(** [doc.save()]: a document built by [new] is inserted ([isNew]), one
    read from the store is written back under its identifier. *)
Definition save (isNew : bool) (o : doc) : M doc :=
  d <- get_db ;;
  put_db (mkDb (users d)
               (if isNew then orders d ++ [o] else write_back o (orders d))
               (next_id d) (now d)) ;;
  ret o.

Definition findOne (f : filter) : M (option doc) :=
  d <- get_db ;;
  ret (List.find (matches f) (orders d)).

Definition find (f : filter) : M (list doc) :=
  d <- get_db ;;
  ret (List.filter (matches f) (orders d)).

(** [.sort('-createdAt')]: most recent first. *)
Definition newer_first (a b : doc) : Prop := (createdAt b <= createdAt a)%N.
#[global] Instance newer_first_dec a b : Decision (newer_first a b).
Proof. unfold newer_first. apply _. Defined.
Definition sort_createdAt_desc (l : list doc) : list doc :=
  merge_sort newer_first l.

Definition findById (q : QueryId) : M (option doc) :=
  match q with
  | IdValue i => findOne (mkFilter (Some i) None None)
  | RequestObject => throw CastError
  end.

Fixpoint update_status (i : ObjectId) (v : string) (l : list doc)
  : option doc * list doc :=
  match l with
  | [] => (None, [])
  | x :: l' =>
    if bool_decide (_id x = i) then (Some (set_status v x), set_status v x :: l')
    else let (r, l'') := update_status i v l' in (r, x :: l'')
  end.

(** [findByIdAndUpdate(id, { status: v }, { new: true })] *)
Definition findByIdAndUpdate (i : ObjectId) (v : string) : M (option doc) :=
  d <- get_db ;;
  let (r, l) := update_status i v (orders d) in
  put_db (mkDb (users d) l (next_id d) (now d)) ;;
  ret r.
End OrderModel.

(** The fields [register] hands to [UserModel.create]. *)
Record NewUser := mkNewUser {
  nu_name : string;
  nu_email : string;
  nu_password : PasswordHash;
  nu_address : string
}.

Module UserModel.
Import User.

Definition findById (i : ObjectId) : M (option doc) :=
  d <- get_db ;;
  ret (List.find (fun u => bool_decide (_id u = i)) (users d)).

(** [findOne({ email: e })]: an exact match on the stored string. *)
Definition findOne (e : string) : M (option doc) :=
  d <- get_db ;;
  ret (List.find (fun u => bool_decide (email u = e)) (users d)).

(** Modelled from the spec: [models/user.model.js] is not among the
    sources. A registered user is neither administrator nor blocked;
    the email is unique, which the store enforces, if at all, by an
    index on the stored string: [unique_index] says whether the schema
    declares one. *)
Definition create (unique_index : bool) (u : NewUser) : M doc :=
  d <- get_db ;;
  if (unique_index
      && bool_decide (nu_email u ∈ map email (users d)))%bool
  then throw DuplicateKey
  else
    let r := mk (next_id d) (nu_email u) (nu_password u) (nu_name u)
                (nu_address u) false false in
    put_db (mkDb (users d ++ [r]) (orders d) (N.succ (next_id d)) (now d)) ;;
    ret r.
End UserModel.

(** Property access on the result of a lookup: [null.p] throws. *)
Definition deref {A} (what : string) (o : option A) : M A :=
  match o with
  | Some a => ret a
  | None => throw (TypeError what)
  end.

(** ** [routers/order.router.js] *)

(** The names the module binds: its imports and its two top-level
    declarations. *)
Definition module_scope : list string :=
  [ "Router"; "handler"; "auth"; "BAD_REQUEST"; "UNAUTHORIZED";
    "OrderModel"; "OrderStatus"; "UserModel"; "router"; "getOrder" ].

(** Evaluating the identifier [name] in a scope: the value bound to it, or
    a ReferenceError when the scope has no such binding. *)
Definition resolve {A} (scope : list string) (name : string) (value : A) : M A :=
  if bool_decide (name ∈ scope) then ret value else throw (ReferenceError name).

(** [router.post('/create', ...)] *)
Definition post_create (req : Request unit NewOrderBody) : M unit :=
  let order := body req in
  (if Z.of_nat (length (body_items order)) <=? 0
   then res_status BAD_REQUEST ;; res_send (BText "Cart Is Empty!")
   else ret tt) ;;
  newOrder <- OrderModel.new (spread_with_user order (id (req_user req))) ;;
  newOrder <- OrderModel.save true newOrder ;;
  res_send (BOrder newOrder).

(** [router.put('/pay', ...)]; the body carries [paymentId]. The handler
    calls [getNewOrderForCurrentUser], which it looks up in [scope];
    [helper] is what that name denotes when the scope binds it. *)
Definition put_pay_in (scope : list string)
    (helper : Request unit (option string) -> M (option Order.doc))
    (req : Request unit (option string)) : M unit :=
  let paymentId := body req in
  getNewOrderForCurrentUser <- resolve scope "getNewOrderForCurrentUser" helper ;;
  order <- getNewOrderForCurrentUser req ;;
  match order with
  | None => res_status BAD_REQUEST ;; res_send (BText "Order Not Found!")
  | Some order =>
    let order := Order.set_paymentId paymentId order in
    let order := Order.set_status OrderStatus.PAYED order in
    order <- OrderModel.save false order ;;
    res_send (BObjectId (Order._id order))
  end.

(** The route as the module has it. *)
Definition put_pay := put_pay_in module_scope.

(** Modelled from the spec: [getNewOrderForCurrentUser] is called by the
    pay route but neither [order.router.js] nor any other source declares
    it. The specification describes it as locating "the caller's most
    recent NEW order". *)
Definition most_recent_new_order (req : Request unit (option string))
  : M (option Order.doc) :=
  found <- OrderModel.find
             (Order.mkFilter None (Some (id (req_user req))) (Some OrderStatus.NEW)) ;;
  ret (head (OrderModel.sort_createdAt_desc found)).

(** The filter built by [router.get('/track/:orderId', ...)]. *)
Definition track_filter (orderId : ObjectId) (user : User.doc) : Order.filter :=
  let filter := Order.mkFilter (Some orderId) None None in
  if negb (User.isAdmin user)
  then Order.mkFilter (Order.f_id filter) (Some (User._id user)) (Order.f_status filter)
  else filter.

(** [router.get('/track/:orderId', ...)] *)
Definition get_track (req : Request ObjectId unit) : M unit :=
  let orderId := params req in
  user <- UserModel.findById (id (req_user req)) ;;
  user <- deref "user.isAdmin" user ;;
  let filter := track_filter orderId user in
  order <- OrderModel.findOne filter ;;
  match order with
  | None => res_send (BNumber UNAUTHORIZED)
  | Some order => res_send (BOrder order)
  end.

(** [const getOrder = async (orderId) => await OrderModel.findById(orderId)] *)
Definition getOrder (orderId : QueryId) : M (option Order.doc) :=
  OrderModel.findById orderId.

(** [router.get('/order/:orderId', ...)] *)
Definition get_order (req : Request ObjectId unit) : M unit :=
  let orderId := params req in
  try_catch
    (order <- getOrder (IdValue orderId) ;;
     order <- match order with
              | None => getOrder RequestObject
              | Some _ => ret order
              end ;;
     match order with
     | None => res_status BAD_REQUEST ;; res_send BEmpty
     | Some order => res_send (BOrder order)
     end)
    (fun error => res_status 500 ;; res_send (BText "Internal Server Error")).

Record StatusBody := mkStatusBody {
  isPaid : JsValue;
  isExpired : JsValue
}.

(** [router.put('/:id/status', ...)] *)
Definition put_status (req : Request ObjectId StatusBody) : M unit :=
  try_catch
    (let id := params req in
     let isPaid := isPaid (body req) in
     let isExpired := isExpired (body req) in
     let newStatus :=
       if truthy isExpired then Some OrderStatus.FAILED
       else if truthy isPaid then Some OrderStatus.PAID
       else None in
     match newStatus with
     | None =>
       res_status 400 ;;
       res_send (BError "Invalid status update. Either isPaid or isExpired must be true.")
     | Some newStatus =>
       order <- OrderModel.findByIdAndUpdate id newStatus ;;
       match order with
       | None => res_status 404 ;; res_send (BError "Order not found")
       | Some order =>
         res_status 200 ;;
         res_send (BSuccess ("Order status updated to " ++ newStatus) order)
       end
     end)
    (fun err => res_status 500 ;; res_send (BError "An internal server error occurred")).

(** The filter built by [router.get('/:status?', ...)]. *)
Definition list_filter (status : option string) (user : User.doc) : Order.filter :=
  let filter := Order.mkFilter None None None in
  let filter :=
    if negb (User.isAdmin user)
    then Order.mkFilter (Order.f_id filter) (Some (User._id user)) (Order.f_status filter)
    else filter in
  if truthy_param status
  then Order.mkFilter (Order.f_id filter) (Order.f_user filter) status
  else filter.

(** [router.get('/:status?', ...)] *)
Definition get_orders (req : Request (option string) unit) : M unit :=
  let status := params req in
  user <- UserModel.findById (id (req_user req)) ;;
  user <- deref "user.isAdmin" user ;;
  let filter := list_filter status user in
  found <- OrderModel.find filter ;;
  let orders := OrderModel.sort_createdAt_desc found in
  res_send (BOrders orders).

(** ** [routers/user.router.js] *)

Definition generateTokenResponse (user : User.doc) : TokenResponse :=
  let token := mkClaims (User._id user) (User.email user) (User.isAdmin user) in
  mkTokenResponse (User._id user) (User.email user) (User.name user)
    (User.address user) (User.isAdmin user) token.

Record RegisterBody := mkRegisterBody {
  reg_name : string;
  reg_email : string;
  reg_password : string;
  reg_address : string
}.

(** [router.post('/register', ...)]; [unique_index] is the schema option
    described at [UserModel.create]. *)
Definition post_register (unique_index : bool) (req : RegisterBody) : M unit :=
  let name := reg_name req in
  let email := reg_email req in
  let password := reg_password req in
  let address := reg_address req in
  user <- UserModel.findOne email ;;
  match user with
  | Some _ =>
    res_status BAD_REQUEST ;; res_send (BText "User already exists, please login!")
  | None =>
    let hashedPassword := Bcrypt PASSWORD_HASH_SALT_ROUNDS password in
    let newUser := mkNewUser name (toLowerCase email) hashedPassword address in
    result <- UserModel.create unique_index newUser ;;
    res_send (BUser (generateTokenResponse result))
  end.

(** Serving one request: the handler runs against the store with a response
    object on which nothing has been set or sent. A [Throw] result of a
    route wrapped in [handler(...)] is the rejection that wrapper forwards
    to the error middleware. *)
Definition serve (h : M unit) (d : Db) : Result unit * State :=
  h (mkState d fresh_res).

Definition outcome (r : Result unit * State) : Result unit := fst r.
Definition response (r : Result unit * State) : option Response := sent (res (snd r)).
Definition store (r : Result unit * State) : Db := db (snd r).

(** * Properties *)

(** The order a lookup by identifier returns: the first document of the
    collection carrying that identifier. *)
Definition order_with_id (i : ObjectId) (l : list Order.doc) : option Order.doc :=
  List.find (fun x => bool_decide (Order._id x = i)) l.

Definition user_with_id (i : ObjectId) (l : list User.doc) : option User.doc :=
  List.find (fun u => bool_decide (User._id u = i)) l.

(** The store invariant the database maintains: identifiers are unique and
    older than the next one to be drawn. *)
Definition unique_ids (d : Db) : Prop :=
  NoDup (map Order._id (orders d)).

Definition wf_db (d : Db) : Prop :=
  unique_ids d /\ Forall (fun o => (Order._id o < next_id d)%N) (orders d).

Ltac run :=
  unfold serve, outcome, response, store, bind, ret, throw, try_catch,
    get_db, put_db, res_status, res_send, deref, fresh_res; simpl.

Section StoreLemmas.
Import Order.

Lemma matches_id_only i o :
  matches (mkFilter (Some i) None None) o = bool_decide (_id o = i).
Proof. unfold matches; simpl. by rewrite !andb_true_r. Qed.

Lemma find_matches_id_only i l :
  List.find (matches (mkFilter (Some i) None None)) l = order_with_id i l.
Proof.
  unfold order_with_id. induction l as [|x l IH]; simpl; [done|].
  rewrite matches_id_only. by destruct (bool_decide (_id x = i)).
Qed.

Lemma order_with_id_Some i l o :
  order_with_id i l = Some o -> o ∈ l /\ _id o = i.
Proof.
  unfold order_with_id. intros H. apply find_some in H as [Hin Hid].
  split; [by apply list_elem_of_In | by apply bool_decide_eq_true in Hid].
Qed.

Lemma order_with_id_None i l :
  order_with_id i l = None <-> (forall o, o ∈ l -> _id o <> i).
Proof.
  unfold order_with_id. split.
  - intros H o Hin Hid. apply list_elem_of_In in Hin.
    pose proof (find_none _ _ H o Hin) as Hb. simpl in Hb.
    apply bool_decide_eq_false in Hb. contradiction.
  - intros H. induction l as [|x l IH]; simpl; [done|].
    rewrite bool_decide_eq_false_2 by (apply H; left).
    apply IH. intros o Ho. apply H. by right.
Qed.

Lemma update_status_found i v l o :
  order_with_id i l = Some o ->
  exists l', OrderModel.update_status i v l = (Some (set_status v o), l')
    /\ order_with_id i l' = Some (set_status v o)
    /\ (forall j, j <> i -> order_with_id j l' = order_with_id j l)
    /\ length l' = length l.
Proof.
  unfold order_with_id. induction l as [|x l IH]; simpl; [done|].
  destruct (bool_decide (_id x = i)) eqn:E.
  - intros [= <-]. eexists; split; [done|]. simpl.
    apply bool_decide_eq_true in E. rewrite bool_decide_eq_true_2 by done.
    split_and!; [done| |done]. intros j Hj.
    by rewrite bool_decide_eq_false_2 by congruence.
  - intros H. destruct (IH H) as (l' & -> & Hl & Hother & Hlen).
    exists (x :: l'); simpl. rewrite E.
    split_and!; [done|done| |by rewrite Hlen].
    intros j Hj. by rewrite (Hother j Hj).
Qed.

Lemma update_status_missing i v l :
  order_with_id i l = None -> OrderModel.update_status i v l = (None, l).
Proof.
  unfold order_with_id. induction l as [|x l IH]; simpl; [done|].
  destruct (bool_decide (_id x = i)); [done|].
  intros H. by rewrite (IH H).
Qed.
End StoreLemmas.

(** ** Update status *)

(** [o'] is [o] in every field but, possibly, the status. *)
Definition same_but_status (o o' : Order.doc) : Prop :=
  Order._id o' = Order._id o
  /\ Order.items o' = Order.items o
  /\ Order.totalPrice o' = Order.totalPrice o
  /\ Order.paymentId o' = Order.paymentId o
  /\ Order.user o' = Order.user o
  /\ Order.createdAt o' = Order.createdAt o.

(** What a successful status update leaves behind: an order [o'] whose
    status is [v] and whose other fields are those of [o] is what the answer
    carries and what the store now holds under the identifier of [o]; every
    other order and every user is as before. *)
Definition status_set_to (v : string) (o : Order.doc) (d : Db)
    (r : Result unit * State) : Prop :=
  exists o',
    Order.status o' = v
    /\ same_but_status o o'
    /\ outcome r = Ok tt
    /\ response r =
         Some (mkResponse 200 (BSuccess ("Order status updated to " ++ v) o'))
    /\ order_with_id (Order._id o) (orders (store r)) = Some o'
    /\ (forall j, j <> Order._id o ->
          order_with_id j (orders (store r)) = order_with_id j (orders d))
    /\ users (store r) = users d.

Definition invalid_status_update : Response :=
  mkResponse 400
    (BError "Invalid status update. Either isPaid or isExpired must be true.").

Definition order_not_found : Response :=
  mkResponse 404 (BError "Order not found").

Lemma put_status_run (req : Request ObjectId StatusBody) (d : Db) (v : string) :
  (if truthy (isExpired (body req)) then Some OrderStatus.FAILED
   else if truthy (isPaid (body req)) then Some OrderStatus.PAID
   else None) = Some v ->
  serve (put_status req) d =
    match OrderModel.update_status (params req) v (orders d) with
    | (Some o, l) =>
      (Ok tt, mkState (mkDb (users d) l (next_id d) (now d))
                (mkRes 200 (Some (mkResponse 200
                   (BSuccess ("Order status updated to " ++ v) o)))))
    | (None, l) =>
      (Ok tt, mkState (mkDb (users d) l (next_id d) (now d))
                (mkRes 404 (Some order_not_found)))
    end.
Proof.
  intros Hv. unfold put_status. run. rewrite Hv.
  unfold OrderModel.findByIdAndUpdate. run.
  destruct (OrderModel.update_status (params req) v (orders d)) as [[o|] l]; done.
Qed.

Lemma db_eta (d : Db) : mkDb (users d) (orders d) (next_id d) (now d) = d.
Proof. by destruct d. Qed.

(** C2. Update status: an expired flag moves the order to FAILED; failing
    that, a paid flag moves it to PAID; with neither flag the request is
    answered 400 and the store is untouched; with a flag set and no order
    under the identifier it is answered 404 and the store is untouched. *)
Theorem put_status_transitions (req : Request ObjectId StatusBody) (d : Db) :
  let r := serve (put_status req) d in
  let expired := truthy (isExpired (body req)) in
  let paid := truthy (isPaid (body req)) in
  (forall o, order_with_id (params req) (orders d) = Some o ->
     (expired = true -> status_set_to OrderStatus.FAILED o d r)
     /\ (expired = false -> paid = true -> status_set_to OrderStatus.PAID o d r))
  /\ (expired = false -> paid = false ->
        outcome r = Ok tt /\ response r = Some invalid_status_update /\ store r = d)
  /\ (order_with_id (params req) (orders d) = None ->
      expired = true \/ paid = true ->
        outcome r = Ok tt /\ response r = Some order_not_found /\ store r = d).
Proof.
  intros r expired paid. subst r expired paid. split_and!.
  - intros o Ho.
    assert (Hgen : forall v,
      (if truthy (isExpired (body req)) then Some OrderStatus.FAILED
       else if truthy (isPaid (body req)) then Some OrderStatus.PAID
       else None) = Some v ->
      status_set_to v o d (serve (put_status req) d)).
    { intros v Hv. rewrite (put_status_run req d v Hv).
      destruct (update_status_found _ v _ _ Ho) as (l' & -> & Hl & Hother & _).
      destruct (order_with_id_Some _ _ _ Ho) as [_ Hid].
      exists (Order.set_status v o).
      unfold same_but_status, outcome, response, store; simpl.
      rewrite Hid. split_and!; done. }
    split.
    + intros He. apply Hgen. by rewrite He.
    + intros He Hp. apply Hgen. by rewrite He, Hp.
  - intros He Hp. unfold put_status. run. rewrite He, Hp. simpl.
    split_and!; [done|done|]. by destruct d.
  - intros Hnone Hflag.
    assert (exists v,
      (if truthy (isExpired (body req)) then Some OrderStatus.FAILED
       else if truthy (isPaid (body req)) then Some OrderStatus.PAID
       else None) = Some v) as [v Hv].
    { destruct Hflag as [-> | ->]; [by eexists|].
      destruct (truthy (isExpired (body req))); by eexists. }
    rewrite (put_status_run req d v Hv), (update_status_missing _ v _ Hnone).
    unfold outcome, response, store; simpl. by rewrite db_eta.
Qed.

(** A small store used to exercise the statements: an ordinary user (10)
    with two NEW orders and a PAID one, an administrator (11) with one
    NEW order. *)
Module Sample.
Definition alice : User.doc :=
  User.mk 10 "alice@example.com" (Bcrypt 10 "secret") "Alice" "1 Main St" false false.
Definition root : User.doc :=
  User.mk 11 "root@example.com" (Bcrypt 10 "hunter2") "Root" "2 Main St" true false.
Definition pizza : OrderItem := mkOrderItem "pizza" 2 5.
Definition o1 : Order.doc :=
  Order.mk 1 [pizza] (Some 10) None OrderStatus.NEW (Some 10%N) 100.
Definition o2 : Order.doc :=
  Order.mk 2 [pizza] (Some 10) None OrderStatus.NEW (Some 11%N) 200.
Definition o3 : Order.doc :=
  Order.mk 3 [pizza] (Some 10) (Some "tok0") OrderStatus.PAID (Some 10%N) 300.
Definition o4 : Order.doc :=
  Order.mk 4 [pizza] (Some 10) None OrderStatus.NEW (Some 10%N) 400.
Definition db : Db := mkDb [alice; root] [o1; o2; o3; o4] 50 1000.
Definition alice_token : Claims := mkClaims 10 "alice@example.com" false.
Definition root_token : Claims := mkClaims 11 "root@example.com" true.
End Sample.

Lemma put_status_transitions_witness :
  status_set_to OrderStatus.FAILED Sample.o2 Sample.db
    (serve (put_status (mkRequest Sample.alice_token 2%N
                          (mkStatusBody (JBool true) (JBool true)))) Sample.db)
  /\ status_set_to OrderStatus.PAID Sample.o2 Sample.db
       (serve (put_status (mkRequest Sample.alice_token 2%N
                             (mkStatusBody (JBool true) JUndefined))) Sample.db)
  /\ response (serve (put_status (mkRequest Sample.alice_token 2%N
                                    (mkStatusBody JUndefined (JBool false)))) Sample.db)
     = Some invalid_status_update
  /\ response (serve (put_status (mkRequest Sample.alice_token 9%N
                                    (mkStatusBody (JBool true) JUndefined))) Sample.db)
     = Some order_not_found.
Proof.
  split_and!.
  - destruct (put_status_transitions
                (mkRequest Sample.alice_token 2%N (mkStatusBody (JBool true) (JBool true)))
                Sample.db) as [H _].
    destruct (H Sample.o2 eq_refl) as [H1 _]. exact (H1 eq_refl).
  - destruct (put_status_transitions
                (mkRequest Sample.alice_token 2%N (mkStatusBody (JBool true) JUndefined))
                Sample.db) as [H _].
    destruct (H Sample.o2 eq_refl) as [_ H2]. exact (H2 eq_refl eq_refl).
  - destruct (put_status_transitions
                (mkRequest Sample.alice_token 2%N (mkStatusBody JUndefined (JBool false)))
                Sample.db) as (_ & H & _).
    exact (proj1 (proj2 (H eq_refl eq_refl))).
  - destruct (put_status_transitions
                (mkRequest Sample.alice_token 9%N (mkStatusBody (JBool true) JUndefined))
                Sample.db) as (_ & _ & H).
    exact (proj1 (proj2 (H eq_refl (or_intror eq_refl)))).
Defined.

(** ** Track *)

Lemma unique_ids_same_order (l : list Order.doc) (o x : Order.doc) :
  NoDup (map Order._id l) -> o ∈ l -> x ∈ l -> Order._id x = Order._id o -> x = o.
Proof.
  induction l as [|y l IH]; simpl; intros Hnd Ho Hx Hid.
  - by apply elem_of_nil in Ho.
  - apply NoDup_cons in Hnd as [Hy Hnd].
    apply elem_of_cons in Ho as [->|Ho]; apply elem_of_cons in Hx as [->|Hx].
    + done.
    + exfalso. apply Hy. rewrite <- Hid. by apply list_elem_of_fmap_2.
    + exfalso. apply Hy. rewrite Hid. by apply list_elem_of_fmap_2.
    + by apply IH.
Qed.

Lemma user_with_id_Some i l u :
  user_with_id i l = Some u -> u ∈ l /\ User._id u = i.
Proof.
  unfold user_with_id. intros H. apply find_some in H as [Hin Hid].
  split; [by apply list_elem_of_In | by apply bool_decide_eq_true in Hid].
Qed.

Definition unauthorized : Response := mkResponse 200 (BNumber UNAUTHORIZED).

Lemma get_track_run (req : Request ObjectId unit) (d : Db) (u : User.doc) :
  user_with_id (id (req_user req)) (users d) = Some u ->
  serve (get_track req) d =
    (Ok tt,
     mkState d (mkRes 200 (Some
       match List.find (Order.matches (track_filter (params req) u)) (orders d) with
       | Some o => mkResponse 200 (BOrder o)
       | None => unauthorized
       end))).
Proof.
  intros Hu. unfold get_track, UserModel.findById, OrderModel.findOne. run.
  fold (user_with_id (id (req_user req)) (users d)). rewrite Hu. simpl.
  destruct (List.find _ (orders d)); by destruct d.
Qed.

(** With unique identifiers, a lookup by identifier and owner misses an
    order owned by someone else, and a lookup by identifier alone finds
    the order carrying it. *)
Lemma find_foreign_order (l : list Order.doc) (o : Order.doc) (uid : ObjectId) :
  NoDup (map Order._id l) -> o ∈ l -> Order.user o <> Some uid ->
  List.find (Order.matches (Order.mkFilter (Some (Order._id o)) (Some uid) None)) l
  = None.
Proof.
  intros Hnd Ho Hown.
  destruct (List.find _ l) as [x|] eqn:E; [exfalso|done].
  apply find_some in E as [Hx Hm]. apply list_elem_of_In in Hx.
  unfold Order.matches in Hm; simpl in Hm.
  rewrite andb_true_r in Hm. apply andb_true_iff in Hm as [H1 H2].
  apply bool_decide_eq_true in H1, H2.
  assert (x = o) as -> by (by apply (unique_ids_same_order l)).
  congruence.
Qed.

Lemma find_order_by_id (l : list Order.doc) (o : Order.doc) :
  NoDup (map Order._id l) -> o ∈ l ->
  List.find (Order.matches (Order.mkFilter (Some (Order._id o)) None None)) l
  = Some o.
Proof.
  intros Hnd Ho. rewrite find_matches_id_only.
  destruct (order_with_id (Order._id o) l) as [x|] eqn:E.
  - apply order_with_id_Some in E as [Hx Hid].
    f_equal. by apply (unique_ids_same_order l).
  - exfalso. by apply (proj1 (order_with_id_None _ _) E o).
Qed.

(** C3. Track: a caller whose stored record is not an administrator's, asking
    for an order owned by someone else, is answered with the Unauthorized
    status and not with the order. *)
Theorem track_foreign_order_unauthorized
    (req : Request ObjectId unit) (d : Db) (u : User.doc) (o : Order.doc) :
  unique_ids d ->
  user_with_id (id (req_user req)) (users d) = Some u ->
  User.isAdmin u = false ->
  o ∈ orders d ->
  Order.user o <> Some (id (req_user req)) ->
  params req = Order._id o ->
  let r := serve (get_track req) d in
  outcome r = Ok tt
  /\ response r = Some unauthorized
  /\ (forall c, response r <> Some (mkResponse c (BOrder o)))
  /\ store r = d.
Proof.
  intros Hnd Hu Hadm Ho Hown Hid r. subst r.
  destruct (user_with_id_Some _ _ _ Hu) as [_ Huid].
  rewrite (get_track_run req d u Hu). unfold track_filter. rewrite Hadm, Hid. simpl.
  rewrite (find_foreign_order (orders d) o (User._id u) Hnd Ho) by congruence.
  unfold outcome, response, store; simpl. split_and!; [done|done| |done].
  intros c. unfold unauthorized. congruence.
Qed.

Lemma track_foreign_order_unauthorized_witness :
  response (serve (get_track (mkRequest Sample.alice_token 2%N tt)) Sample.db)
  = Some unauthorized.
Proof.
  refine (proj1 (proj2 (track_foreign_order_unauthorized
            (mkRequest Sample.alice_token 2%N tt) Sample.db Sample.alice Sample.o2
            _ eq_refl eq_refl _ _ eq_refl))).
  - unfold unique_ids. compute_done.
  - compute_done.
  - simpl. congruence.
Defined.

(** ** List orders *)

#[global] Instance newer_first_total : Total OrderModel.newer_first.
Proof. intros a b. unfold OrderModel.newer_first. lia. Qed.

#[global] Instance newer_first_trans : Transitive OrderModel.newer_first.
Proof. intros a b c. unfold OrderModel.newer_first. lia. Qed.

(** The orders a caller is entitled to see, in the specification's words: an
    administrator sees all orders, anyone else only the orders they own, in
    both cases narrowed to one status when a status is given. *)
Definition visible_to (u : User.doc) (status : option string) (o : Order.doc) : bool :=
  (User.isAdmin u || bool_decide (Order.user o = Some (User._id u)))
  && match status with
     | Some s => bool_decide (Order.status o = s)
     | None => true
     end.

Lemma matches_list_filter (u : User.doc) (p : option string) (o : Order.doc) :
  Order.matches (list_filter p u) o
  = visible_to u (if truthy_param p then p else None) o.
Proof.
  unfold list_filter, visible_to, Order.matches.
  destruct (User.isAdmin u), (truthy_param p); simpl;
    rewrite ?andb_true_r; try done; by destruct p.
Qed.

Lemma get_orders_run (req : Request (option string) unit) (d : Db) (u : User.doc) :
  user_with_id (id (req_user req)) (users d) = Some u ->
  serve (get_orders req) d =
    (Ok tt,
     mkState d (mkRes 200 (Some (mkResponse 200 (BOrders
       (OrderModel.sort_createdAt_desc
          (List.filter (Order.matches (list_filter (params req) u)) (orders d)))))))).
Proof.
  intros Hu. unfold get_orders, UserModel.findById, OrderModel.find. run.
  fold (user_with_id (id (req_user req)) (users d)). rewrite Hu. simpl.
  by destruct d.
Qed.

(** C4. List orders: the answer is the array of the orders visible to the
    caller's stored record (all orders for an administrator, the caller's
    own otherwise), narrowed to the status of the route when there is one,
    each order once, ordered by creation time with the most recent first. *)
Theorem get_orders_scoped_and_sorted
    (req : Request (option string) unit) (d : Db) (u : User.doc) :
  user_with_id (id (req_user req)) (users d) = Some u ->
  exists l,
    serve (get_orders req) d
      = (Ok tt, mkState d (mkRes 200 (Some (mkResponse 200 (BOrders l)))))
    /\ StronglySorted OrderModel.newer_first l
    /\ (params req = None ->
        l ≡ₚ List.filter (visible_to u None) (orders d))
    /\ (forall s, s <> "" -> params req = Some s ->
        l ≡ₚ List.filter (visible_to u (Some s)) (orders d)).
Proof.
  intros Hu. eexists. split; [by apply get_orders_run|].
  unfold OrderModel.sort_createdAt_desc. split_and!.
  - apply StronglySorted_merge_sort; apply _.
  - intros Hp. rewrite merge_sort_Permutation, Hp.
    erewrite List.filter_ext; [done|]. intros o. by rewrite matches_list_filter.
  - intros s Hs Hp. rewrite merge_sort_Permutation, Hp.
    erewrite List.filter_ext; [done|]. intros o. rewrite matches_list_filter.
    simpl. by rewrite (proj2 (String.eqb_neq s "") Hs).
Qed.

Lemma get_orders_scoped_and_sorted_witness :
  exists l,
    serve (get_orders (mkRequest Sample.root_token (Some OrderStatus.NEW) tt)) Sample.db
      = (Ok tt, mkState Sample.db (mkRes 200 (Some (mkResponse 200 (BOrders l)))))
    /\ l ≡ₚ [Sample.o1; Sample.o2; Sample.o4].
Proof.
  destruct (get_orders_scoped_and_sorted
              (mkRequest Sample.root_token (Some OrderStatus.NEW) tt)
              Sample.db Sample.root eq_refl) as (l & Hrun & _ & _ & Hs).
  exists l. split; [exact Hrun|].
  exact (Hs OrderStatus.NEW ltac:(discriminate) eq_refl).
Defined.

Example get_orders_newest_first :
  response (serve (get_orders (mkRequest Sample.alice_token None tt)) Sample.db)
  = Some (mkResponse 200 (BOrders [Sample.o4; Sample.o3; Sample.o1])).
Proof. reflexivity. Qed.

(** ** Create order *)

(** The document the create route builds from a request. *)
Lemma post_create_run (req : Request unit NewOrderBody) (d : Db) :
  let o := Order.mk (next_id d) (body_items (body req)) (body_totalPrice (body req))
             (body_paymentId (body req)) OrderStatus.NEW
             (Some (id (req_user req))) (now d) in
  let d' := mkDb (users d) (orders d ++ [o]) (N.succ (next_id d)) (now d) in
  serve (post_create req) d =
    match body_items (body req) with
    | [] => (Throw ERR_HTTP_HEADERS_SENT,
             mkState d' (mkRes 400 (Some (mkResponse 400 (BText "Cart Is Empty!")))))
    | _ :: _ => (Ok tt, mkState d' (mkRes 200 (Some (mkResponse 200 (BOrder o)))))
    end.
Proof.
  unfold post_create, OrderModel.new, OrderModel.save. run.
  by destruct (body_items (body req)).
Qed.

(** The create route answered with a new order [o], appended to the
    collection, owned by the caller and in status [v]. *)
Definition creates_order_with_status (v : string)
    (req : Request unit NewOrderBody) (d : Db) : Prop :=
  let r := serve (post_create req) d in
  exists o,
    outcome r = Ok tt
    /\ response r = Some (mkResponse 200 (BOrder o))
    /\ orders (store r) = (orders d ++ [o])%list
    /\ Order.user o = Some (id (req_user req))
    /\ Order.status o = v.

(** C5. A create request with a non-empty item list is answered with a new
    order, appended to the collection, whose owner is the caller and whose
    status is NEW. *)
Theorem post_create_owner_and_status (req : Request unit NewOrderBody) (d : Db) :
  body_items (body req) <> [] ->
  creates_order_with_status OrderStatus.NEW req d.
Proof.
  intros Hne. unfold creates_order_with_status. rewrite post_create_run.
  destruct (body_items (body req)) eqn:E; [done|].
  eexists. unfold outcome, response, store; simpl. split_and!; done.
Qed.

Lemma post_create_owner_and_status_witness :
  creates_order_with_status OrderStatus.NEW
    (mkRequest Sample.alice_token tt
       (mkNewOrderBody [Sample.pizza] (Some 10) None None None))
    Sample.db.
Proof.
  refine (post_create_owner_and_status
            (mkRequest Sample.alice_token tt
               (mkNewOrderBody [Sample.pizza] (Some 10) None None None))
            Sample.db _).
  simpl. discriminate.
Defined.

(** C6 fails on the code. With an empty item list the route does answer 400
    "Cart Is Empty!", but it does not stop there: it goes on to build and
    save the order, and its second send is what throws. *)
Theorem post_create_empty_cart_saves_order
    (caller : Claims) (tp : option Z) (pid st : option string)
    (owner : option ObjectId) (d : Db) :
  let req := mkRequest caller tt (mkNewOrderBody [] tp pid st owner) in
  let r := serve (post_create req) d in
  response r = Some (mkResponse BAD_REQUEST (BText "Cart Is Empty!"))
  /\ outcome r = Throw ERR_HTTP_HEADERS_SENT
  /\ exists o, orders (store r) = (orders d ++ [o])%list
               /\ Order.items o = []
               /\ Order.user o = Some (id caller).
Proof.
  intros req r. subst r req. rewrite post_create_run. simpl.
  unfold outcome, response, store; simpl. split_and!; [done|done|].
  eexists. split_and!; done.
Qed.

Definition with_body_user (x : option ObjectId) (b : NewOrderBody) : NewOrderBody :=
  mkNewOrderBody (body_items b) (body_totalPrice b) (body_paymentId b)
    (body_status b) x.

(** C10. Create order: whatever the body says, the order that is stored is
    owned by the authenticated caller, and a [user] value in the body has no
    effect at all on what the request does. *)
Theorem post_create_owner_is_caller (req : Request unit NewOrderBody) (d : Db) :
  (exists o, orders (store (serve (post_create req) d)) = (orders d ++ [o])%list
             /\ Order.user o = Some (id (req_user req)))
  /\ (forall x : option ObjectId,
        serve (post_create
                 (mkRequest (req_user req) (params req) (with_body_user x (body req)))) d
        = serve (post_create req) d).
Proof.
  split.
  - rewrite post_create_run.
    destruct (body_items (body req)); eexists; unfold store; simpl; split; done.
  - intros x. by rewrite !post_create_run.
Qed.

(** ** Record payment *)

(** What the pay route does once [getNewOrderForCurrentUser] is bound, to
    [helper], and has answered. *)
Lemma put_pay_in_bound_run (scope : list string)
    (helper : Request unit (option string) -> M (option Order.doc))
    (req : Request unit (option string)) (s : State) :
  "getNewOrderForCurrentUser" ∈ scope ->
  put_pay_in scope helper req s =
    match helper req s with
    | (Throw e, s') => (Throw e, s')
    | (Ok None, s') =>
      (res_status BAD_REQUEST ;; res_send (BText "Order Not Found!")) s'
    | (Ok (Some o), s') =>
      (saved <- OrderModel.save false
                  (Order.set_status OrderStatus.PAYED
                     (Order.set_paymentId (body req) o)) ;;
       res_send (BObjectId (Order._id saved))) s'
    end.
Proof.
  intros Hin. unfold put_pay_in, resolve, bind at 1.
  rewrite bool_decide_eq_true_2 by done. unfold ret at 1, bind at 1.
  by destruct (helper req s) as [[[o|]|e] s'].
Qed.

(** The caller's most recent NEW order, as the specification has it: a NEW
    order of the caller that no NEW order of the caller is newer than. *)
Lemma most_recent_new_order_selects (req : Request unit (option string)) (s : State) :
  exists r, most_recent_new_order req s = (Ok r, s)
    /\ match r with
       | Some o =>
         o ∈ orders (db s)
         /\ Order.user o = Some (id (req_user req))
         /\ Order.status o = OrderStatus.NEW
         /\ forall o', o' ∈ orders (db s) ->
              Order.user o' = Some (id (req_user req)) ->
              Order.status o' = OrderStatus.NEW ->
              (Order.createdAt o' <= Order.createdAt o)%N
       | None =>
         forall o', o' ∈ orders (db s) ->
           ~ (Order.user o' = Some (id (req_user req))
              /\ Order.status o' = OrderStatus.NEW)
       end.
Proof.
  unfold most_recent_new_order, OrderModel.find. run.
  set (f := Order.mkFilter None (Some (id (req_user req))) (Some OrderStatus.NEW)).
  assert (Hm : forall o, Order.matches f o = true <->
            Order.user o = Some (id (req_user req)) /\ Order.status o = OrderStatus.NEW).
  { intros o. unfold Order.matches, f; simpl.
    rewrite andb_true_iff, !bool_decide_eq_true. tauto. }
  assert (Hmem : forall o, o ∈ OrderModel.sort_createdAt_desc
                                 (List.filter (Order.matches f) (orders (db s)))
            <-> o ∈ orders (db s) /\ Order.matches f o = true).
  { intros o. unfold OrderModel.sort_createdAt_desc.
    rewrite merge_sort_Permutation, !list_elem_of_In. apply filter_In. }
  pose proof (StronglySorted_merge_sort OrderModel.newer_first
                (List.filter (Order.matches f) (orders (db s)))) as Hs.
  fold (OrderModel.sort_createdAt_desc
          (List.filter (Order.matches f) (orders (db s)))) in Hs.
  eexists. split; [reflexivity|].
  destruct (OrderModel.sort_createdAt_desc _) as [|o l]; simpl.
  - intros o' Hin Ho'. apply Hm in Ho'.
    apply (elem_of_nil o'). apply Hmem. by split.
  - destruct (proj1 (Hmem o) ltac:(left)) as [Hin Ho]. apply Hm in Ho as [? ?].
    split_and!; [done..|]. intros o' Hin' Hu' Hst'.
    assert (o' ∈ o :: l) as Hl by (apply Hmem; split; [done|]; by apply Hm).
    apply StronglySorted_inv in Hs as [_ Hall].
    apply elem_of_cons in Hl as [->|Hl]; [lia|].
    rewrite Forall_forall in Hall. by apply (Hall o').
Qed.

Lemma write_back_found (o x : Order.doc) (l : list Order.doc) :
  order_with_id (Order._id o) l = Some x ->
  order_with_id (Order._id o) (OrderModel.write_back o l) = Some o
  /\ (forall j, j <> Order._id o ->
        order_with_id j (OrderModel.write_back o l) = order_with_id j l).
Proof.
  unfold order_with_id. induction l as [|y l IH]; simpl; [done|].
  destruct (bool_decide (Order._id y = Order._id o)) eqn:E; simpl.
  - intros _. rewrite bool_decide_eq_true_2 by done. split; [done|].
    intros j Hj. apply bool_decide_eq_true in E.
    by rewrite !bool_decide_eq_false_2 by congruence.
  - intros H. destruct (IH H) as [H1 H2]. rewrite E. split; [done|].
    intros j Hj. by rewrite (H2 j Hj).
Qed.

(** The pay route with its helper bound as the specification describes it:
    the caller's most recent NEW order receives the payment token and the
    status OrderStatus.PAYED, every other order is left as it was; with no
    NEW order of the caller the answer is 400 and nothing changes. *)
Lemma put_pay_bound_outcomes (scope : list string)
    (req : Request unit (option string)) (d : Db) :
  "getNewOrderForCurrentUser" ∈ scope ->
  let r := serve (put_pay_in scope most_recent_new_order req) d in
  match fst (most_recent_new_order req (mkState d fresh_res)) with
  | Ok (Some o) =>
    response r = Some (mkResponse 200 (BObjectId (Order._id o)))
    /\ order_with_id (Order._id o) (orders (store r))
       = Some (Order.set_status OrderStatus.PAYED (Order.set_paymentId (body req) o))
    /\ (forall j, j <> Order._id o ->
          order_with_id j (orders (store r)) = order_with_id j (orders d))
  | Ok None =>
    response r = Some (mkResponse BAD_REQUEST (BText "Order Not Found!"))
    /\ store r = d
  | Throw _ => False
  end.
Proof.
  intros Hin r. subst r. unfold serve. rewrite (put_pay_in_bound_run _ _ _ _ Hin).
  destruct (most_recent_new_order_selects req (mkState d fresh_res))
    as (r0 & -> & Hsel). simpl.
  destruct r0 as [o|].
  - destruct Hsel as (Ho & _). simpl in Ho.
    assert (exists x, order_with_id (Order._id o) (orders d) = Some x) as [x Hx].
    { destruct (order_with_id (Order._id o) (orders d)) eqn:E; [by eexists|].
      exfalso. by apply (proj1 (order_with_id_None _ _) E o). }
    unfold OrderModel.save. run.
    destruct (write_back_found
                (Order.set_status OrderStatus.PAYED (Order.set_paymentId (body req) o))
                x (orders d) Hx) as [H1 H2].
    split_and!; done.
  - run. split; [done|]. by destruct d.
Qed.

(** C1 fails on the code. The pay route calls [getNewOrderForCurrentUser],
    a name the router module never binds: whatever that helper was meant to
    be, every pay request ends in a ReferenceError with no order selected,
    no payment token stored and no answer sent. Were the name bound to the
    lookup the specification describes, the order selected would be the
    caller's most recent NEW order and it would receive the payment token,
    but its status would be set to OrderStatus.PAYED, which is not the
    OrderStatus.PAID that update-status writes. *)
Theorem put_pay_never_records_payment :
  (forall helper req d,
     serve (put_pay helper req) d
     = (Throw (ReferenceError "getNewOrderForCurrentUser"), mkState d fresh_res))
  /\ (let req := mkRequest Sample.alice_token tt (Some "tok123") in
      let r := serve (put_pay_in ("getNewOrderForCurrentUser" :: module_scope)
                        most_recent_new_order req) Sample.db in
      response r = Some (mkResponse 200 (BObjectId 4))
      /\ order_with_id 4 (orders (store r))
         = Some (Order.mk 4 [Sample.pizza] (Some 10) (Some "tok123")
                   OrderStatus.PAYED (Some 10%N) 400)
      /\ OrderStatus.PAYED <> OrderStatus.PAID).
Proof.
  split; [|by split_and!].
  intros helper req d. reflexivity.
Qed.

(** ** Fetch order by id *)

(** C7 fails on the code in its second half. An order that exists is
    returned; for one that does not, the route retries the lookup with the
    request object in place of the identifier, the store rejects that
    argument, and the answer is 500 "Internal Server Error" where the claim
    has NotFound (400). *)
Theorem get_order_missing_answers_500 (req : Request ObjectId unit) (d : Db) :
  (forall o, order_with_id (params req) (orders d) = Some o ->
     serve (get_order req) d
     = (Ok tt, mkState d (mkRes 200 (Some (mkResponse 200 (BOrder o))))))
  /\ (order_with_id (params req) (orders d) = None ->
      serve (get_order req) d
      = (Ok tt, mkState d
                  (mkRes 500 (Some (mkResponse 500 (BText "Internal Server Error")))))).
Proof.
  split.
  - intros o Ho. unfold get_order, getOrder, OrderModel.findById, OrderModel.findOne.
    run. rewrite find_matches_id_only, Ho. simpl. by destruct d.
  - intros Ho. unfold get_order, getOrder, OrderModel.findById, OrderModel.findOne.
    run. rewrite find_matches_id_only, Ho. simpl. by destruct d.
Qed.

Lemma get_order_missing_answers_500_witness :
  response (serve (get_order (mkRequest Sample.alice_token 9%N tt)) Sample.db)
  = Some (mkResponse 500 (BText "Internal Server Error"))
  /\ response (serve (get_order (mkRequest Sample.alice_token 2%N tt)) Sample.db)
     = Some (mkResponse 200 (BOrder Sample.o2)).
Proof.
  split.
  - exact (f_equal response
             (proj2 (get_order_missing_answers_500
                       (mkRequest Sample.alice_token 9%N tt) Sample.db) eq_refl)).
  - exact (f_equal response
             (proj1 (get_order_missing_answers_500
                       (mkRequest Sample.alice_token 2%N tt) Sample.db)
                    Sample.o2 eq_refl)).
Defined.

(** ** The access scope follows the stored role *)

(** C8. Track and list-orders take the caller's role from the user record
    they look up on each request, not from the token: requests whose tokens
    differ only in the claims beside the identifier are served alike, and
    one token presented against two stores that differ in the caller's
    stored administrator flag is scoped differently: as administrator the
    caller is shown another user's order, as non-administrator not. *)
Theorem scope_follows_stored_role :
  (forall (c c' : Claims) (d : Db), id c = id c' ->
     (forall p, serve (get_orders (mkRequest c p tt)) d
                = serve (get_orders (mkRequest c' p tt)) d)
     /\ (forall i, serve (get_track (mkRequest c i tt)) d
                   = serve (get_track (mkRequest c' i tt)) d))
  /\ (forall (c : Claims) (d d' : Db) (u u' : User.doc) (o : Order.doc),
        orders d = orders d' ->
        unique_ids d ->
        user_with_id (id c) (users d) = Some u -> User.isAdmin u = true ->
        user_with_id (id c) (users d') = Some u' -> User.isAdmin u' = false ->
        o ∈ orders d -> Order.user o <> Some (id c) ->
        (response (serve (get_track (mkRequest c (Order._id o) tt)) d)
           = Some (mkResponse 200 (BOrder o))
         /\ response (serve (get_track (mkRequest c (Order._id o) tt)) d')
            = Some unauthorized)
        /\ exists l l',
             response (serve (get_orders (mkRequest c None tt)) d)
               = Some (mkResponse 200 (BOrders l))
             /\ response (serve (get_orders (mkRequest c None tt)) d')
                = Some (mkResponse 200 (BOrders l'))
             /\ o ∈ l /\ o ∉ l').
Proof.
  split.
  - intros c c' d Hid. split; intros x.
    + unfold get_orders; simpl. by rewrite Hid.
    + unfold get_track; simpl. by rewrite Hid.
  - intros c d d' u u' o Hord Hnd Hu Hadm Hu' Hadm' Ho Hown.
    destruct (user_with_id_Some _ _ _ Hu') as [_ Huid'].
    split; [split|].
    + rewrite (get_track_run (mkRequest c (Order._id o) tt) d u Hu).
      unfold track_filter. rewrite Hadm. simpl.
      by rewrite (find_order_by_id (orders d) o Hnd Ho).
    + rewrite (get_track_run (mkRequest c (Order._id o) tt) d' u' Hu').
      unfold track_filter. rewrite Hadm'. simpl. rewrite <- Hord.
      rewrite (find_foreign_order (orders d) o (User._id u') Hnd Ho) by congruence.
      done.
    + rewrite (get_orders_run (mkRequest c None tt) d u Hu).
      rewrite (get_orders_run (mkRequest c None tt) d' u' Hu').
      do 2 eexists. split_and!; [reflexivity|reflexivity| |].
      * unfold OrderModel.sort_createdAt_desc.
        rewrite merge_sort_Permutation, list_elem_of_In. apply filter_In.
        split; [by apply list_elem_of_In|].
        rewrite matches_list_filter. unfold visible_to. by rewrite Hadm.
      * unfold OrderModel.sort_createdAt_desc.
        rewrite merge_sort_Permutation, list_elem_of_In. intros Hin.
        apply filter_In in Hin as [_ Hm].
        rewrite matches_list_filter in Hm. unfold visible_to in Hm.
        rewrite Hadm' in Hm. simpl in Hm. rewrite andb_true_r in Hm.
        apply bool_decide_eq_true in Hm. congruence.
Qed.

Lemma scope_follows_stored_role_witness :
  let demoted :=
    mkDb [Sample.alice; User.mk 11 "root@example.com" (Bcrypt 10 "hunter2")
                          "Root" "2 Main St" false false]
         (orders Sample.db) 50 1000 in
  response (serve (get_track (mkRequest Sample.root_token 1%N tt)) Sample.db)
    = Some (mkResponse 200 (BOrder Sample.o1))
  /\ response (serve (get_track (mkRequest Sample.root_token 1%N tt)) demoted)
     = Some unauthorized
  /\ serve (get_orders (mkRequest Sample.root_token None tt)) Sample.db
     = serve (get_orders (mkRequest (mkClaims 11 "root@example.com" false) None tt))
         Sample.db.
Proof.
  intros demoted.
  destruct scope_follows_stored_role as [Htoken Hrole].
  destruct (Hrole Sample.root_token Sample.db demoted Sample.root
              (User.mk 11 "root@example.com" (Bcrypt 10 "hunter2")
                 "Root" "2 Main St" false false)
              Sample.o1 eq_refl ltac:(unfold unique_ids; compute_done)
              eq_refl eq_refl eq_refl eq_refl ltac:(compute_done)
              ltac:(simpl; congruence)) as [[Ha Hn] _].
  split_and!; [exact Ha|exact Hn|].
  exact (proj1 (Htoken Sample.root_token (mkClaims 11 "root@example.com" false)
                  Sample.db eq_refl) None).
Defined.

(** ** Registration *)

Definition user_exists : Response :=
  mkResponse BAD_REQUEST (BText "User already exists, please login!").

Lemma find_email_None (e : string) (l : list User.doc) :
  (forall u, u ∈ l -> User.email u <> e) ->
  List.find (fun u => bool_decide (User.email u = e)) l = None.
Proof.
  intros H. induction l as [|x l IH]; simpl; [done|].
  rewrite bool_decide_eq_false_2 by (apply H; left).
  apply IH. intros u Hu. apply H. by right.
Qed.

(** A request whose email is stored, character for character, is refused
    and changes nothing. *)
Lemma post_register_exact_duplicate (unique_index : bool) (req : RegisterBody)
    (d : Db) (u : User.doc) :
  u ∈ users d -> User.email u = reg_email req ->
  serve (post_register unique_index req) d
  = (Ok tt, mkState d (mkRes BAD_REQUEST (Some user_exists))).
Proof.
  intros Hu He. unfold post_register, UserModel.findOne. run.
  destruct (List.find _ (users d)) as [x|] eqn:E; simpl; [by destruct d|].
  apply list_elem_of_In in Hu. pose proof (find_none _ _ E u Hu) as Hb.
  simpl in Hb. apply bool_decide_eq_false in Hb. contradiction.
Qed.


(** A request whose email is stored only in its lower-cased form is not
    refused by the route: the lookup misses, and the store is asked to
    create the user. *)
Lemma post_register_case_variant_run (unique_index : bool) (req : RegisterBody)
    (d : Db) (u : User.doc) :
  (forall x, x ∈ users d -> User.email x <> reg_email req) ->
  u ∈ users d -> User.email u = toLowerCase (reg_email req) ->
  serve (post_register unique_index req) d
  = if unique_index then (Throw DuplicateKey, mkState d fresh_res)
    else
      (let n := User.mk (next_id d) (toLowerCase (reg_email req))
                  (Bcrypt PASSWORD_HASH_SALT_ROUNDS (reg_password req))
                  (reg_name req) (reg_address req) false false in
       (Ok tt,
        mkState (mkDb (users d ++ [n]) (orders d) (N.succ (next_id d)) (now d))
          (mkRes 200 (Some (mkResponse 200 (BUser (generateTokenResponse n))))))).
Proof.
  intros Hexact Hu He. unfold post_register, UserModel.findOne, UserModel.create.
  run. rewrite (find_email_None _ _ Hexact). simpl.
  destruct unique_index; simpl; [|done].
  rewrite bool_decide_eq_true_2; [by destruct d|].
  rewrite <- He. by apply list_elem_of_fmap_2.
Qed.

(** C9 fails on the code. With alice@example.com registered, a registration
    for Alice@Example.com, the same email under case-insensitive
    comparison, is not answered with the client error: the route looks the
    email up as typed, finds nothing, and creates a user under the
    lower-cased email. Without a unique index that is a second user with
    the same stored email; with one, the store rejects the insert and the
    request ends in that exception, with no answer sent by the route. *)
Theorem post_register_case_variant_not_refused (unique_index : bool) :
  let d := mkDb [Sample.alice] [] 50 1000 in
  let req := mkRegisterBody "Alice" "Alice@Example.com" "secret" "1 Main St" in
  let r := serve (post_register unique_index req) d in
  toLowerCase (reg_email req) = toLowerCase (User.email Sample.alice)
  /\ response r <> Some user_exists
  /\ if unique_index
     then outcome r = Throw DuplicateKey /\ response r = None
     else outcome r = Ok tt
          /\ map User.email (users (store r))
             = [ "alice@example.com"; "alice@example.com" ].
Proof.
  destruct unique_index; simpl; split_and!; done.
Qed.

(** ** The store invariant is maintained *)

Lemma update_status_ids (i : ObjectId) (v : string) (l : list Order.doc) :
  map Order._id (snd (OrderModel.update_status i v l)) = map Order._id l.
Proof.
  induction l as [|x l IH]; simpl; [done|].
  destruct (bool_decide (Order._id x = i)); simpl; [done|].
  destruct (OrderModel.update_status i v l) as [r l']; simpl in *. by rewrite IH.
Qed.

Lemma post_create_preserves_wf (req : Request unit NewOrderBody) (d : Db) :
  wf_db d -> wf_db (store (serve (post_create req) d)).
Proof.
  intros [Hnd Hlt]. pose proof (post_create_run req d) as Hrun. simpl in Hrun.
  rewrite Hrun. unfold wf_db, unique_ids in *.
  destruct (body_items (body req)); unfold store; simpl;
    rewrite map_app, Forall_app; simpl.
  all: split;
    [ apply NoDup_app; split_and!; [done| |apply NoDup_singleton]
    | split; [eapply Forall_impl; [exact Hlt|simpl; intros; lia]
             | apply Forall_singleton; simpl; lia] ].
  all: intros i Hi Hi'; apply list_elem_of_singleton in Hi'; subst i;
    apply list_elem_of_fmap in Hi as (x & Hx & Hin);
    rewrite Forall_forall in Hlt; specialize (Hlt x Hin); lia.
Qed.

Lemma put_status_preserves_wf (req : Request ObjectId StatusBody) (d : Db) :
  wf_db d -> wf_db (store (serve (put_status req) d)).
Proof.
  intros Hwf.
  destruct (if truthy (isExpired (body req)) then Some OrderStatus.FAILED
            else if truthy (isPaid (body req)) then Some OrderStatus.PAID
            else None) as [v|] eqn:Hv.
  - rewrite (put_status_run req d v Hv).
    pose proof (update_status_ids (params req) v (orders d)) as Hids.
    destruct Hwf as [Hnd Hlt]. unfold wf_db, unique_ids in *.
    destruct (OrderModel.update_status (params req) v (orders d)) as [[o|] l];
      unfold store; simpl in *; rewrite Hids; (split; [done|]).
    all: apply (proj1 (List.Forall_map Order._id (fun i => (i < next_id d)%N) l));
      rewrite Hids;
      by apply (proj2 (List.Forall_map Order._id (fun i => (i < next_id d)%N) (orders d))).
  - unfold put_status. run. rewrite Hv. simpl. by destruct d.
Qed.

(** * Further properties of the order routes *)

Lemma get_order_run (req : Request ObjectId unit) (d : Db) :
  serve (get_order req) d =
    (Ok tt,
     mkState d
       match order_with_id (params req) (orders d) with
       | Some o => mkRes 200 (Some (mkResponse 200 (BOrder o)))
       | None => mkRes 500 (Some (mkResponse 500 (BText "Internal Server Error")))
       end).
Proof.
  unfold get_order, getOrder, OrderModel.findById, OrderModel.findOne.
  run. rewrite find_matches_id_only.
  destruct (order_with_id (params req) (orders d)); simpl; by destruct d.
Qed.

Lemma order_with_id_unique (l : list Order.doc) (o : Order.doc) :
  NoDup (map Order._id l) -> o ∈ l -> order_with_id (Order._id o) l = Some o.
Proof.
  intros Hnd Ho. rewrite <- find_matches_id_only. by apply find_order_by_id.
Qed.

Lemma find_own_order (l : list Order.doc) (o : Order.doc) (uid : ObjectId) :
  NoDup (map Order._id l) -> o ∈ l -> Order.user o = Some uid ->
  List.find (Order.matches (Order.mkFilter (Some (Order._id o)) (Some uid) None)) l
  = Some o.
Proof.
  intros Hnd Ho Hown.
  destruct (List.find _ l) as [x|] eqn:E.
  - apply find_some in E as [Hx Hm]. apply list_elem_of_In in Hx.
    unfold Order.matches in Hm; simpl in Hm.
    rewrite andb_true_r in Hm. apply andb_true_iff in Hm as [H1 _].
    apply bool_decide_eq_true in H1.
    f_equal. by apply (unique_ids_same_order l).
  - exfalso. apply list_elem_of_In in Ho.
    pose proof (find_none _ _ E o Ho) as Hm.
    unfold Order.matches in Hm; simpl in Hm.
    by rewrite !bool_decide_eq_true_2 in Hm.
Qed.

(** The three reading routes (track, fetch by id, list) leave the store
    exactly as they found it, whatever the request and however they end. *)
Theorem reading_routes_leave_store (d : Db) :
  (forall req, store (serve (get_track req) d) = d)
  /\ (forall req, store (serve (get_order req) d) = d)
  /\ (forall req, store (serve (get_orders req) d) = d).
Proof.
  split_and!; intros req.
  - unfold get_track, UserModel.findById, OrderModel.findOne. run.
    destruct (List.find _ (users d)); simpl; [|done].
    destruct (List.find _ (orders d)); simpl; by destruct d.
  - by rewrite get_order_run.
  - unfold get_orders, UserModel.findById, OrderModel.find. run.
    destruct (List.find _ (users d)); simpl; [|done]. by destruct d.
Qed.

(** Track and list read [user.isAdmin] from the looked-up record without
    checking that the lookup found one: for a caller whose user record is
    not in the store both routes throw a TypeError and send nothing. *)
Theorem scoped_routes_need_user_record (c : Claims) (d : Db) :
  user_with_id (id c) (users d) = None ->
  (forall i, serve (get_track (mkRequest c i tt)) d
             = (Throw (TypeError "user.isAdmin"), mkState d fresh_res))
  /\ (forall p, serve (get_orders (mkRequest c p tt)) d
                = (Throw (TypeError "user.isAdmin"), mkState d fresh_res)).
Proof.
  intros Hu. split; intros x.
  - unfold get_track, UserModel.findById. run.
    fold (user_with_id (id c) (users d)). by rewrite Hu.
  - unfold get_orders, UserModel.findById. run.
    fold (user_with_id (id c) (users d)). by rewrite Hu.
Qed.

Lemma scoped_routes_need_user_record_witness :
  serve (get_track (mkRequest (mkClaims 77 "ghost@example.com" true) 1%N tt)) Sample.db
  = (Throw (TypeError "user.isAdmin"), mkState Sample.db fresh_res).
Proof.
  exact (proj1 (scoped_routes_need_user_record
                  (mkClaims 77 "ghost@example.com" true) Sample.db eq_refl) 1%N).
Defined.

(** Track answers a stored administrator with any order of the store, and
    a stored non-administrator with any order they own. *)
Theorem track_returns_visible_order
    (c : Claims) (d : Db) (u : User.doc) (o : Order.doc) :
  unique_ids d ->
  user_with_id (id c) (users d) = Some u ->
  o ∈ orders d ->
  User.isAdmin u = true \/ Order.user o = Some (id c) ->
  serve (get_track (mkRequest c (Order._id o) tt)) d
  = (Ok tt, mkState d (mkRes 200 (Some (mkResponse 200 (BOrder o))))).
Proof.
  intros Hnd Hu Ho Hvis.
  destruct (user_with_id_Some _ _ _ Hu) as [_ Huid].
  rewrite (get_track_run (mkRequest c (Order._id o) tt) d u Hu). unfold track_filter. simpl.
  destruct (User.isAdmin u) eqn:Hadm; simpl.
  - by rewrite (find_order_by_id (orders d) o Hnd Ho).
  - destruct Hvis as [?|Hown]; [done|].
    rewrite (find_own_order (orders d) o (User._id u) Hnd Ho) by congruence.
    done.
Qed.

Lemma track_returns_visible_order_witness :
  response (serve (get_track (mkRequest Sample.alice_token 4%N tt)) Sample.db)
  = Some (mkResponse 200 (BOrder Sample.o4))
  /\ response (serve (get_track (mkRequest Sample.root_token 1%N tt)) Sample.db)
     = Some (mkResponse 200 (BOrder Sample.o1)).
Proof.
  split.
  - exact (f_equal response
             (track_returns_visible_order Sample.alice_token Sample.db Sample.alice
                Sample.o4 ltac:(unfold unique_ids; compute_done) eq_refl
                ltac:(compute_done) (or_intror eq_refl))).
  - exact (f_equal response
             (track_returns_visible_order Sample.root_token Sample.db Sample.root
                Sample.o1 ltac:(unfold unique_ids; compute_done) eq_refl
                ltac:(compute_done) (or_introl eq_refl))).
Defined.

(** Fetch by id applies no access scope: the order another user owns, which
    track refuses to a non-administrator, is returned to the same caller
    by the fetch route. *)
Theorem fetch_ignores_access_scope
    (c : Claims) (d : Db) (u : User.doc) (o : Order.doc) :
  unique_ids d ->
  user_with_id (id c) (users d) = Some u ->
  User.isAdmin u = false ->
  o ∈ orders d ->
  Order.user o <> Some (id c) ->
  response (serve (get_track (mkRequest c (Order._id o) tt)) d) = Some unauthorized
  /\ response (serve (get_order (mkRequest c (Order._id o) tt)) d)
     = Some (mkResponse 200 (BOrder o)).
Proof.
  intros Hnd Hu Hadm Ho Hown.
  destruct (user_with_id_Some _ _ _ Hu) as [_ Huid]. split.
  - rewrite (get_track_run (mkRequest c (Order._id o) tt) d u Hu). unfold track_filter. rewrite Hadm. simpl.
    by rewrite (find_foreign_order (orders d) o (User._id u) Hnd Ho) by congruence.
  - rewrite get_order_run. simpl.
    by rewrite (order_with_id_unique (orders d) o Hnd Ho).
Qed.

Lemma fetch_ignores_access_scope_witness :
  response (serve (get_track (mkRequest Sample.alice_token 2%N tt)) Sample.db)
    = Some unauthorized
  /\ response (serve (get_order (mkRequest Sample.alice_token 2%N tt)) Sample.db)
     = Some (mkResponse 200 (BOrder Sample.o2)).
Proof.
  exact (fetch_ignores_access_scope Sample.alice_token Sample.db Sample.alice Sample.o2
           ltac:(unfold unique_ids; compute_done) eq_refl eq_refl
           ltac:(compute_done) ltac:(simpl; congruence)).
Defined.

(** The status a status-update request asks for, if any. *)
Definition requested_status (b : StatusBody) : option string :=
  if truthy (isExpired b) then Some OrderStatus.FAILED
  else if truthy (isPaid b) then Some OrderStatus.PAID
  else None.

Lemma put_status_store (req : Request ObjectId StatusBody) (d : Db)
    (v : string) (o : Order.doc) :
  requested_status (body req) = Some v ->
  order_with_id (params req) (orders d) = Some o ->
  order_with_id (params req) (orders (store (serve (put_status req) d)))
  = Some (Order.set_status v o)
  /\ users (store (serve (put_status req) d)) = users d.
Proof.
  intros Hv Ho. rewrite (put_status_run req d v Hv).
  destruct (update_status_found _ v _ _ Ho) as (l' & -> & Hl & _).
  by unfold store.
Qed.

Lemma update_status_twice (i : ObjectId) (v : string) (l : list Order.doc) :
  OrderModel.update_status i v (snd (OrderModel.update_status i v l))
  = OrderModel.update_status i v l.
Proof.
  induction l as [|x l IH]; simpl; [done|].
  destruct (bool_decide (Order._id x = i)) eqn:E; simpl.
  - by rewrite E.
  - destruct (OrderModel.update_status i v l) as [r l'] eqn:El; simpl in *.
    by rewrite E, IH.
Qed.

(** Update status is idempotent: repeating a request against the store the
    first run left gives the same answer and the same store again. *)
Theorem put_status_idempotent (req : Request ObjectId StatusBody) (d : Db) :
  serve (put_status req) (store (serve (put_status req) d))
  = serve (put_status req) d.
Proof.
  destruct (requested_status (body req)) as [v|] eqn:Hv.
  - rewrite !(put_status_run req _ v Hv).
    pose proof (update_status_twice (params req) v (orders d)) as Htw.
    destruct (OrderModel.update_status (params req) v (orders d)) as [[o|] l];
      unfold store; simpl in *; by rewrite Htw.
  - unfold requested_status in Hv.
    destruct (truthy (isExpired (body req))) eqn:He; [done|].
    destruct (truthy (isPaid (body req))) eqn:Hp; [done|].
    unfold put_status. run. rewrite !He, !Hp. simpl. by destruct d.
Qed.

Lemma requested_status_flags (b : StatusBody) :
  truthy (isExpired b) = true \/ truthy (isPaid b) = true ->
  requested_status b
  = Some (if truthy (isExpired b) then OrderStatus.FAILED else OrderStatus.PAID).
Proof.
  unfold requested_status. intros [->| ->]; [done|].
  by destruct (truthy (isExpired b)).
Qed.

Lemma set_status_fields (v : string) (o : Order.doc) :
  Order.status (Order.set_status v o) = v
  /\ same_but_status o (Order.set_status v o).
Proof. unfold same_but_status. by destruct o. Qed.

(** A status update is visible to the next fetch: after an update with a
    flag set on an existing order, fetching the order by id returns an order
    whose status is the requested one (FAILED for the expired flag, PAID
    otherwise) and whose other fields are as they were. *)
Theorem put_status_then_fetch (c : Claims) (req : Request ObjectId StatusBody)
    (d : Db) (o : Order.doc) :
  order_with_id (params req) (orders d) = Some o ->
  truthy (isExpired (body req)) = true \/ truthy (isPaid (body req)) = true ->
  exists o',
    response (serve (get_order (mkRequest c (params req) tt))
                (store (serve (put_status req) d)))
    = Some (mkResponse 200 (BOrder o'))
    /\ Order.status o' = (if truthy (isExpired (body req))
                          then OrderStatus.FAILED else OrderStatus.PAID)
    /\ same_but_status o o'.
Proof.
  intros Ho Hflag. pose proof (requested_status_flags (body req) Hflag) as Hv.
  eexists. split; [|apply set_status_fields].
  rewrite get_order_run. simpl.
  by rewrite (proj1 (put_status_store req d _ o Hv Ho)).
Qed.

Lemma put_status_then_fetch_witness :
  exists o',
    response (serve (get_order (mkRequest Sample.alice_token 2%N tt))
                (store (serve (put_status (mkRequest Sample.root_token 2%N
                                             (mkStatusBody (JBool true) (JBool false))))
                          Sample.db)))
    = Some (mkResponse 200 (BOrder o'))
    /\ Order.status o' = "PAID"
    /\ Order.user o' = Some 11%N.
Proof.
  destruct (put_status_then_fetch Sample.alice_token
              (mkRequest Sample.root_token 2%N (mkStatusBody (JBool true) (JBool false)))
              Sample.db Sample.o2 eq_refl (or_intror eq_refl))
    as (o' & H1 & H2 & H3).
  exists o'. split_and!; [exact H1|exact H2|].
  exact (proj1 (proj2 (proj2 (proj2 (proj2 H3))))).
Defined.

(** Update status has no lifecycle guard: it does not look at the status an
    order is in. An order that one request moved to FAILED is moved to PAID
    by a later request that sets only the paid flag, whoever sends it; its
    other fields stay as they were throughout. *)
Theorem put_status_last_write_wins
    (c1 c2 : Claims) (i : ObjectId) (b1 b2 : StatusBody) (d : Db) (o : Order.doc) :
  order_with_id i (orders d) = Some o ->
  truthy (isExpired b1) = true ->
  truthy (isExpired b2) = false ->
  truthy (isPaid b2) = true ->
  let d1 := store (serve (put_status (mkRequest c1 i b1)) d) in
  let d2 := store (serve (put_status (mkRequest c2 i b2)) d1) in
  exists o1 o2,
    order_with_id i (orders d1) = Some o1
    /\ Order.status o1 = OrderStatus.FAILED
    /\ same_but_status o o1
    /\ order_with_id i (orders d2) = Some o2
    /\ Order.status o2 = OrderStatus.PAID
    /\ same_but_status o o2.
Proof.
  intros Ho He1 He2 Hp2 d1 d2.
  assert (H1 : requested_status b1 = Some OrderStatus.FAILED)
    by (unfold requested_status; by rewrite He1).
  assert (H2 : requested_status b2 = Some OrderStatus.PAID)
    by (unfold requested_status; by rewrite He2, Hp2).
  destruct (put_status_store (mkRequest c1 i b1) d _ o H1 Ho) as [Hd1 _].
  destruct (put_status_store (mkRequest c2 i b2) d1 _ _ H2 Hd1) as [Hd2 _].
  exists (Order.set_status OrderStatus.FAILED o),
         (Order.set_status OrderStatus.PAID (Order.set_status OrderStatus.FAILED o)).
  split_and!; [exact Hd1|by destruct o|apply set_status_fields|exact Hd2
              |by destruct o|].
  unfold same_but_status. by destruct o.
Qed.

Lemma put_status_last_write_wins_witness :
  exists o2,
    order_with_id 3
      (orders (store (serve (put_status (mkRequest Sample.alice_token 3%N
                                           (mkStatusBody (JBool true) JUndefined)))
                        (store (serve (put_status (mkRequest Sample.root_token 3%N
                                                     (mkStatusBody JUndefined (JBool true))))
                                  Sample.db)))))
    = Some o2
    /\ Order.status o2 = "PAID".
Proof.
  destruct (put_status_last_write_wins Sample.root_token Sample.alice_token 3%N
              (mkStatusBody JUndefined (JBool true))
              (mkStatusBody (JBool true) JUndefined)
              Sample.db Sample.o3 eq_refl eq_refl eq_refl eq_refl)
    as (o1 & o2 & _ & _ & _ & H4 & H5 & _).
  exists o2. split; [exact H4|exact H5].
Defined.

(** Everything of an order but its status. *)
Definition without_status (o : Order.doc)
  : ObjectId * list OrderItem * option Z * option string * option ObjectId * N :=
  (Order._id o, Order.items o, Order.totalPrice o, Order.paymentId o,
   Order.user o, Order.createdAt o).

Lemma update_status_frame (i : ObjectId) (v : string) (l : list Order.doc) :
  map without_status (snd (OrderModel.update_status i v l)) = map without_status l
  /\ (forall j, j <> i ->
        order_with_id j (snd (OrderModel.update_status i v l)) = order_with_id j l).
Proof.
  unfold order_with_id. induction l as [|x l [IH1 IH2]]; simpl; [done|].
  destruct (bool_decide (Order._id x = i)) eqn:E; simpl.
  - split; [by destruct x|]. intros j Hj. apply bool_decide_eq_true in E.
    by rewrite !bool_decide_eq_false_2 by (destruct x; simpl in *; congruence).
  - destruct (OrderModel.update_status i v l) as [r l']; simpl in *.
    split; [by rewrite IH1|]. intros j Hj. by rewrite (IH2 j Hj).
Qed.

(** Update status writes nothing but a status: whatever the request, every
    stored order keeps its identifier, items, total, payment token, owner
    and creation time, in the same positions (so identifiers stay unique
    where they were), the orders under other identifiers are untouched, and
    users, identifier counter and clock are as before. *)
Theorem put_status_changes_only_status (req : Request ObjectId StatusBody) (d : Db) :
  let r := serve (put_status req) d in
  map without_status (orders (store r)) = map without_status (orders d)
  /\ (forall j, j <> params req ->
        order_with_id j (orders (store r)) = order_with_id j (orders d))
  /\ users (store r) = users d
  /\ next_id (store r) = next_id d
  /\ now (store r) = now d.
Proof.
  intros r. subst r.
  destruct (requested_status (body req)) as [v|] eqn:Hv.
  - rewrite (put_status_run req d v Hv).
    destruct (update_status_frame (params req) v (orders d)) as [H1 H2].
    destruct (OrderModel.update_status (params req) v (orders d)) as [[o|] l];
      unfold store; simpl in *; split_and!; done.
  - unfold requested_status in Hv.
    destruct (truthy (isExpired (body req))) eqn:He; [done|].
    destruct (truthy (isPaid (body req))) eqn:Hp; [done|].
    unfold put_status. run. rewrite He, Hp. simpl. split_and!; done.
Qed.

(** * The other routes of [routers/user.router.js] *)

(** The part of a password bcrypt reads: its first 72 bytes. *)
Definition bcrypt_bytes (s : string) : string := substring 0 72 s.

(** [bcrypt.compare(plain, hash)]: whether [hash] was made from a password
    that bcrypt cannot tell from [plain]. *)
Definition bcrypt_compare (plain : string) (h : PasswordHash) : bool :=
  match h with
  | Bcrypt _ p => String.eqb (bcrypt_bytes plain) (bcrypt_bytes p)
  end.

Lemma bcrypt_compare_same (rounds : nat) (p : string) :
  bcrypt_compare p (Bcrypt rounds p) = true.
Proof. unfold bcrypt_compare. apply String.eqb_refl. Qed.

(** Writing user documents back to the collection. *)
Module UserWrites.
Import User.

Definition set_profile (n a : string) (u : doc) : doc :=
  mk (_id u) (email u) (password u) n a (isAdmin u) (isBlocked u).
Definition set_password (h : PasswordHash) (u : doc) : doc :=
  mk (_id u) (email u) h (name u) (address u) (isAdmin u) (isBlocked u).
Definition set_isBlocked (b : bool) (u : doc) : doc :=
  mk (_id u) (email u) (password u) (name u) (address u) (isAdmin u) b.

Fixpoint write_back (u : doc) (l : list doc) : list doc :=
  match l with
  | [] => []
  | x :: l' => if bool_decide (_id x = _id u) then u :: l' else x :: write_back u l'
  end.

(** [user.save()] on a document read from the store. *)
Definition save (u : doc) : M doc :=
  d <- get_db ;;
  put_db (mkDb (write_back u (users d)) (orders d) (next_id d) (now d)) ;;
  ret u.

(** [findByIdAndUpdate(id, { name, address }, { new: true })] *)
Definition findByIdAndUpdate (i : ObjectId) (n a : string) : M (option doc) :=
  user <- UserModel.findById i ;;
  match user with
  | None => ret None
  | Some u => u' <- save (set_profile n a u) ;; ret (Some u')
  end.
End UserWrites.

Record LoginBody := mkLoginBody {
  login_email : string;
  login_password : string
}.

Definition invalid_login : Response :=
  mkResponse BAD_REQUEST (BText "Username or password is invalid").

(** [router.post('/login', ...)] *)
Definition post_login (req : LoginBody) : M unit :=
  let email := login_email req in
  let password := login_password req in
  user <- UserModel.findOne email ;;
  match user with
  | Some user =>
    if bcrypt_compare password (User.password user)
    then res_send (BUser (generateTokenResponse user))
    else res_status BAD_REQUEST ;; res_send (BText "Username or password is invalid")
  | None =>
    res_status BAD_REQUEST ;; res_send (BText "Username or password is invalid")
  end.

Record ProfileBody := mkProfileBody {
  profile_name : string;
  profile_address : string
}.

(** [router.put('/updateProfile', auth, ...)] *)
Definition put_updateProfile (req : Request unit ProfileBody) : M unit :=
  let name := profile_name (body req) in
  let address := profile_address (body req) in
  user <- UserWrites.findByIdAndUpdate (id (req_user req)) name address ;;
  user <- deref "user.id" user ;;
  res_send (BUser (generateTokenResponse user)).

Record PasswordBody := mkPasswordBody {
  currentPassword : string;
  newPassword : string
}.

(** [router.put('/changePassword', auth, ...)] *)
Definition put_changePassword (req : Request unit PasswordBody) : M unit :=
  let currentPassword := currentPassword (body req) in
  let newPassword := newPassword (body req) in
  user <- UserModel.findById (id (req_user req)) ;;
  match user with
  | None => res_status BAD_REQUEST ;; res_send (BText "Change Password Failed!")
  | Some user =>
    let equal := bcrypt_compare currentPassword (User.password user) in
    if negb equal
    then res_status BAD_REQUEST ;; res_send (BText "Current Password Is Not Correct!")
    else
      let user :=
        UserWrites.set_password (Bcrypt PASSWORD_HASH_SALT_ROUNDS newPassword) user in
      UserWrites.save user ;;
      res_send (BText "success")
  end.

(** The first stored user with a given email: what [findOne({ email })]
    returns. *)
Definition user_with_email (e : string) (l : list User.doc) : option User.doc :=
  List.find (fun u => bool_decide (User.email u = e)) l.

Lemma post_login_run (req : LoginBody) (d : Db) :
  serve (post_login req) d =
    (Ok tt,
     mkState d
       match user_with_email (login_email req) (users d) with
       | Some u =>
         if bcrypt_compare (login_password req) (User.password u)
         then mkRes 200 (Some (mkResponse 200 (BUser (generateTokenResponse u))))
         else mkRes BAD_REQUEST (Some invalid_login)
       | None => mkRes BAD_REQUEST (Some invalid_login)
       end).
Proof.
  unfold post_login, UserModel.findOne, user_with_email. run.
  destruct (List.find _ (users d)) as [u|]; simpl; [|by destruct d].
  destruct (bcrypt_compare _ _); simpl; by destruct d.
Qed.

Section UserLemmas.
Import User.

Lemma user_with_email_Some e l u :
  user_with_email e l = Some u -> u ∈ l /\ email u = e.
Proof.
  unfold user_with_email. intros H. apply find_some in H as [Hin He].
  split; [by apply list_elem_of_In | by apply bool_decide_eq_true in He].
Qed.


Lemma write_back_user_found (u' x : doc) (l : list doc) :
  user_with_id (_id u') l = Some x ->
  user_with_id (_id u') (UserWrites.write_back u' l) = Some u'
  /\ (forall j, j <> _id u' ->
        user_with_id j (UserWrites.write_back u' l) = user_with_id j l).
Proof.
  unfold user_with_id. induction l as [|y l IH]; simpl; [done|].
  destruct (bool_decide (_id y = _id u')) eqn:E; simpl.
  - intros _. rewrite bool_decide_eq_true_2 by done. split; [done|].
    intros j Hj. apply bool_decide_eq_true in E.
    by rewrite !bool_decide_eq_false_2 by congruence.
  - intros H. destruct (IH H) as [H1 H2]. rewrite E. split; [done|].
    intros j Hj. by rewrite (H2 j Hj).
Qed.

(** Writing back a document that agrees with the stored one on a field
    leaves that field as it was throughout the collection. *)
Lemma write_back_user_field {B} (f : doc -> B) (u' x : doc) (l : list doc) :
  user_with_id (_id u') l = Some x -> f u' = f x ->
  map f (UserWrites.write_back u' l) = map f l.
Proof.
  unfold user_with_id. induction l as [|y l IH]; simpl; [done|].
  destruct (bool_decide (_id y = _id u')) eqn:E; simpl.
  - intros [= ->] Hf. by rewrite Hf.
  - intros H Hf. by rewrite (IH H Hf).
Qed.

(** When the first user with [x]'s identifier and the first user with
    [x]'s email are both [x], writing back a document with the same
    identifier and email makes it the first user with that email. *)
Lemma write_back_user_email (u' x : doc) (l : list doc) :
  _id u' = _id x -> email u' = email x ->
  user_with_id (_id x) l = Some x ->
  user_with_email (email x) l = Some x ->
  user_with_email (email x) (UserWrites.write_back u' l) = Some u'.
Proof.
  intros Hid Hem. unfold user_with_id, user_with_email.
  induction l as [|y l IH]; simpl; [done|]. rewrite Hid.
  destruct (bool_decide (_id y = _id x)) eqn:E; simpl.
  - intros _ _. by rewrite bool_decide_eq_true_2.
  - intros Hi He. destruct (bool_decide (email y = email x)) eqn:E'.
    + injection He as ->. by rewrite bool_decide_eq_true_2 in E.
    + by apply IH.
Qed.
End UserLemmas.

Lemma toLowerCase_idempotent (s : string) :
  toLowerCase (toLowerCase s) = toLowerCase s.
Proof.
  induction s as [|c s IH]; simpl; [done|]. rewrite IH. f_equal.
  by destruct c as [[] [] [] [] [] [] [] []].
Qed.

(** ** Login *)

(** Login never changes the store, and answers a wrong password and an
    unknown email with one and the same 400: the answer is the login record
    exactly when the first stored user with that email has that password. *)
Theorem post_login_outcomes (req : LoginBody) (d : Db) :
  let r := serve (post_login req) d in
  store r = d
  /\ (forall u, user_with_email (login_email req) (users d) = Some u ->
        bcrypt_compare (login_password req) (User.password u) = true ->
        response r = Some (mkResponse 200 (BUser (generateTokenResponse u))))
  /\ (forall u, user_with_email (login_email req) (users d) = Some u ->
        bcrypt_compare (login_password req) (User.password u) = false ->
        response r = Some invalid_login)
  /\ (user_with_email (login_email req) (users d) = None ->
        response r = Some invalid_login).
Proof.
  intros r. subst r. rewrite post_login_run. unfold store, response; simpl.
  split_and!; [done| | |].
  - intros u -> ->. done.
  - intros u -> ->. done.
  - intros ->. done.
Qed.

Lemma post_login_outcomes_witness :
  response (serve (post_login (mkLoginBody "alice@example.com" "secret")) Sample.db)
    = Some (mkResponse 200 (BUser (generateTokenResponse Sample.alice)))
  /\ response (serve (post_login (mkLoginBody "alice@example.com" "guess")) Sample.db)
     = Some invalid_login
  /\ response (serve (post_login (mkLoginBody "nobody@example.com" "secret")) Sample.db)
     = Some invalid_login.
Proof.
  split_and!.
  - exact (proj1 (proj2 (post_login_outcomes
                           (mkLoginBody "alice@example.com" "secret") Sample.db))
             Sample.alice eq_refl eq_refl).
  - exact (proj1 (proj2 (proj2 (post_login_outcomes
                                  (mkLoginBody "alice@example.com" "guess") Sample.db)))
             Sample.alice eq_refl eq_refl).
  - exact (proj2 (proj2 (proj2 (post_login_outcomes
                                  (mkLoginBody "nobody@example.com" "secret") Sample.db)))
             eq_refl).
Defined.



(** ** Change password *)

Lemma put_changePassword_cases (req : Request unit PasswordBody) (d : Db) :
  serve (put_changePassword req) d =
    match user_with_id (id (req_user req)) (users d) with
    | None =>
      (Ok tt, mkState d (mkRes BAD_REQUEST
         (Some (mkResponse BAD_REQUEST (BText "Change Password Failed!")))))
    | Some u =>
      if bcrypt_compare (currentPassword (body req)) (User.password u)
      then
        (Ok tt,
         mkState
           (mkDb (UserWrites.write_back
                    (UserWrites.set_password
                       (Bcrypt PASSWORD_HASH_SALT_ROUNDS (newPassword (body req))) u)
                    (users d))
                 (orders d) (next_id d) (now d))
           (mkRes 200 (Some (mkResponse 200 (BText "success")))))
      else
        (Ok tt, mkState d (mkRes BAD_REQUEST
           (Some (mkResponse BAD_REQUEST (BText "Current Password Is Not Correct!")))))
    end.
Proof.
  unfold put_changePassword, UserModel.findById, UserWrites.save. run.
  fold (user_with_id (id (req_user req)) (users d)).
  destruct (user_with_id (id (req_user req)) (users d)) as [u|]; simpl;
    [|by destruct d].
  destruct (bcrypt_compare _ _); simpl; [done|by destruct d].
Qed.

(** A change-password request is refused with 400, and the store left as it
    was, when the caller's record is missing or the current password given
    is not the stored one. *)
Theorem put_changePassword_refused (req : Request unit PasswordBody) (d : Db) :
  (user_with_id (id (req_user req)) (users d) = None ->
   serve (put_changePassword req) d
   = (Ok tt, mkState d (mkRes BAD_REQUEST
        (Some (mkResponse BAD_REQUEST (BText "Change Password Failed!"))))))
  /\ (forall u, user_with_id (id (req_user req)) (users d) = Some u ->
        bcrypt_compare (currentPassword (body req)) (User.password u) = false ->
        serve (put_changePassword req) d
        = (Ok tt, mkState d (mkRes BAD_REQUEST
             (Some (mkResponse BAD_REQUEST (BText "Current Password Is Not Correct!")))))).
Proof.
  rewrite put_changePassword_cases. split.
  - by intros ->.
  - by intros u -> ->.
Qed.

Lemma put_changePassword_refused_witness :
  response (serve (put_changePassword
                     (mkRequest Sample.alice_token tt (mkPasswordBody "guess" "new")))
              Sample.db)
  = Some (mkResponse BAD_REQUEST (BText "Current Password Is Not Correct!")).
Proof.
  exact (f_equal response
           (proj2 (put_changePassword_refused
                     (mkRequest Sample.alice_token tt (mkPasswordBody "guess" "new"))
                     Sample.db) Sample.alice eq_refl eq_refl)).
Defined.

Lemma put_changePassword_run (req : Request unit PasswordBody) (d : Db) (u : User.doc) :
  user_with_id (id (req_user req)) (users d) = Some u ->
  bcrypt_compare (currentPassword (body req)) (User.password u) = true ->
  serve (put_changePassword req) d
  = (Ok tt,
     mkState
       (mkDb (UserWrites.write_back
                (UserWrites.set_password
                   (Bcrypt PASSWORD_HASH_SALT_ROUNDS (newPassword (body req))) u)
                (users d))
             (orders d) (next_id d) (now d))
       (mkRes 200 (Some (mkResponse 200 (BText "success"))))).
Proof.
  intros Hu Hc. by rewrite put_changePassword_cases, Hu, Hc.
Qed.

(** Change password, then log in. After a change accepted for a user who is
    the first stored user with their email, a login with that email and the
    new password succeeds, and a login with any password is accepted exactly
    when bcrypt accepts that password against the hash of the new one: the
    stored credential is the new password's and no longer the old one's.
    The login record is the same as before the change. *)
Theorem put_changePassword_then_login
    (req : Request unit PasswordBody) (d : Db) (u : User.doc) :
  user_with_id (id (req_user req)) (users d) = Some u ->
  user_with_email (User.email u) (users d) = Some u ->
  bcrypt_compare (currentPassword (body req)) (User.password u) = true ->
  let r := serve (put_changePassword req) d in
  response r = Some (mkResponse 200 (BText "success"))
  /\ response (serve (post_login (mkLoginBody (User.email u) (newPassword (body req))))
                 (store r))
     = Some (mkResponse 200 (BUser (generateTokenResponse u)))
  /\ forall p,
       response (serve (post_login (mkLoginBody (User.email u) p)) (store r))
       = if bcrypt_compare p (Bcrypt PASSWORD_HASH_SALT_ROUNDS (newPassword (body req)))
         then Some (mkResponse 200 (BUser (generateTokenResponse u)))
         else Some invalid_login.
Proof.
  intros Hu He Hc r. subst r. rewrite (put_changePassword_run req d u Hu Hc).
  destruct (user_with_id_Some _ _ _ Hu) as [_ Hid]. rewrite <- Hid in Hu.
  assert (Hlogin : forall p,
    response (serve (post_login (mkLoginBody (User.email u) p))
                (mkDb (UserWrites.write_back
                         (UserWrites.set_password
                            (Bcrypt PASSWORD_HASH_SALT_ROUNDS (newPassword (body req))) u)
                         (users d))
                      (orders d) (next_id d) (now d)))
    = if bcrypt_compare p (Bcrypt PASSWORD_HASH_SALT_ROUNDS (newPassword (body req)))
      then Some (mkResponse 200 (BUser (generateTokenResponse u)))
      else Some invalid_login).
  { intros p. rewrite post_login_run. unfold response.
    cbn [snd res sent users db login_email login_password].
    rewrite (write_back_user_email
               (UserWrites.set_password
                  (Bcrypt PASSWORD_HASH_SALT_ROUNDS (newPassword (body req))) u)
               u (users d) eq_refl eq_refl Hu He).
    cbn [User.password UserWrites.set_password].
    by destruct (bcrypt_compare p _). }
  unfold store. cbn [snd db]. split_and!; [done| |exact Hlogin].
  by rewrite Hlogin, bcrypt_compare_same.
Qed.

Lemma put_changePassword_then_login_witness :
  let r := serve (put_changePassword
                    (mkRequest Sample.alice_token tt (mkPasswordBody "secret" "s3cret")))
             Sample.db in
  response (serve (post_login (mkLoginBody "alice@example.com" "secret")) (store r))
    = Some invalid_login
  /\ response (serve (post_login (mkLoginBody "alice@example.com" "s3cret")) (store r))
     = Some (mkResponse 200 (BUser (generateTokenResponse Sample.alice))).
Proof.
  intros r.
  destruct (put_changePassword_then_login
              (mkRequest Sample.alice_token tt (mkPasswordBody "secret" "s3cret"))
              Sample.db Sample.alice eq_refl eq_refl eq_refl) as (_ & Hnew & Hall).
  split; [exact (Hall "secret") | exact Hnew].
Defined.

(** ** Update profile *)

(** What identifies a user and what they may do: everything but the name
    and address. *)
Definition credentials (u : User.doc)
  : ObjectId * string * PasswordHash * bool * bool :=
  (User._id u, User.email u, User.password u, User.isAdmin u, User.isBlocked u).

Lemma put_updateProfile_cases (req : Request unit ProfileBody) (d : Db) :
  serve (put_updateProfile req) d =
    match user_with_id (id (req_user req)) (users d) with
    | None => (Throw (TypeError "user.id"), mkState d fresh_res)
    | Some u =>
      let u' := UserWrites.set_profile (profile_name (body req))
                  (profile_address (body req)) u in
      (Ok tt,
       mkState (mkDb (UserWrites.write_back u' (users d)) (orders d)
                  (next_id d) (now d))
         (mkRes 200 (Some (mkResponse 200 (BUser (generateTokenResponse u'))))))
    end.
Proof.
  unfold put_updateProfile, UserWrites.findByIdAndUpdate, UserModel.findById,
    UserWrites.save. run.
  fold (user_with_id (id (req_user req)) (users d)).
  by destruct (user_with_id (id (req_user req)) (users d)).
Qed.

(** Update profile rewrites the name and the address of the caller's record
    and nothing else: the record stored under the caller's identifier
    afterwards carries the name and address of the request and the
    identifier, email, password and flags it had; every other user's record
    is untouched, every user keeps identifier, email, password and flags, no
    order changes, and the answer is the login record with the new name and
    address. *)
Theorem put_updateProfile_effect
    (req : Request unit ProfileBody) (d : Db) (u : User.doc) :
  user_with_id (id (req_user req)) (users d) = Some u ->
  let r := serve (put_updateProfile req) d in
  let n := profile_name (body req) in
  let a := profile_address (body req) in
  outcome r = Ok tt
  /\ response r
     = Some (mkResponse 200
               (BUser (mkTokenResponse (User._id u) (User.email u) n a (User.isAdmin u)
                         (mkClaims (User._id u) (User.email u) (User.isAdmin u)))))
  /\ user_with_id (id (req_user req)) (users (store r))
     = Some (User.mk (User._id u) (User.email u) (User.password u) n a
               (User.isAdmin u) (User.isBlocked u))
  /\ (forall j, j <> id (req_user req) ->
        user_with_id j (users (store r)) = user_with_id j (users d))
  /\ map credentials (users (store r)) = map credentials (users d)
  /\ orders (store r) = orders d.
Proof.
  intros Hu r n a. subst r n a.
  destruct (user_with_id_Some _ _ _ Hu) as [_ Hid].
  rewrite put_updateProfile_cases, Hu.
  set (u' := UserWrites.set_profile (profile_name (body req))
               (profile_address (body req)) u).
  unfold outcome, response, store; simpl.
  rewrite <- Hid in Hu. change (User._id u) with (User._id u') in Hu.
  destruct (write_back_user_found u' u (users d) Hu) as [H1 H2].
  change (User._id u') with (User._id u) in H1, H2. rewrite Hid in H1, H2.
  split_and!; [done|done|done|done| |done].
  by apply (write_back_user_field credentials u' u).
Qed.

Lemma put_updateProfile_effect_witness :
  response (serve (put_updateProfile
                     (mkRequest Sample.alice_token tt (mkProfileBody "Al" "9 Elm St")))
              Sample.db)
  = Some (mkResponse 200
            (BUser (mkTokenResponse 10 "alice@example.com" "Al" "9 Elm St" false
                      (mkClaims 10 "alice@example.com" false)))).
Proof.
  exact (proj1 (proj2 (put_updateProfile_effect
                         (mkRequest Sample.alice_token tt (mkProfileBody "Al" "9 Elm St"))
                         Sample.db Sample.alice eq_refl))).
Defined.

(** Update profile does not check that the update found a user: for a
    caller whose record is not in the store, building the answer throws and
    the store is left as it was. *)
Theorem put_updateProfile_missing_user (req : Request unit ProfileBody) (d : Db) :
  user_with_id (id (req_user req)) (users d) = None ->
  serve (put_updateProfile req) d
  = (Throw (TypeError "user.id"), mkState d fresh_res).
Proof.
  intros Hu. by rewrite put_updateProfile_cases, Hu.
Qed.

Lemma put_updateProfile_missing_user_witness :
  outcome (serve (put_updateProfile
                    (mkRequest (mkClaims 77 "ghost@example.com" false) tt
                       (mkProfileBody "G" "nowhere")))
             Sample.db)
  = Throw (TypeError "user.id").
Proof.
  exact (f_equal outcome
           (put_updateProfile_missing_user
              (mkRequest (mkClaims 77 "ghost@example.com" false) tt
                 (mkProfileBody "G" "nowhere"))
              Sample.db eq_refl)).
Defined.

(** ** Stored emails are lower-case *)

Definition emails_lowercase (d : Db) : Prop :=
  Forall (fun e => toLowerCase e = e) (map User.email (users d)).

(** Every route of the user router that writes keeps the stored emails
    lower-case: registration stores the lower-cased email, update-profile
    and change-password do not touch emails. *)
Theorem user_routes_keep_emails_lowercase (d : Db) :
  emails_lowercase d ->
  (forall ui req, emails_lowercase (store (serve (post_register ui req) d)))
  /\ (forall req, emails_lowercase (store (serve (put_updateProfile req) d)))
  /\ (forall req, emails_lowercase (store (serve (put_changePassword req) d))).
Proof.
  unfold emails_lowercase. intros Hd. split_and!.
  - intros ui req. unfold post_register, UserModel.findOne, UserModel.create. run.
    destruct (List.find _ (users d)); simpl; [done|].
    destruct (ui && _)%bool; simpl; [done|].
    rewrite map_app, Forall_app. split; [done|].
    apply Forall_singleton. simpl. apply toLowerCase_idempotent.
  - intros req. rewrite put_updateProfile_cases.
    destruct (user_with_id (id (req_user req)) (users d)) as [u|] eqn:Hu; [|done].
    unfold store; simpl.
    destruct (user_with_id_Some _ _ _ Hu) as [_ Hid]. rewrite <- Hid in Hu.
    by rewrite (write_back_user_field User.email
                  (UserWrites.set_profile _ _ u) u (users d) Hu eq_refl).
  - intros req. rewrite put_changePassword_cases.
    destruct (user_with_id (id (req_user req)) (users d)) as [u|] eqn:Hu; [|done].
    destruct (bcrypt_compare _ _); [|done]. unfold store; simpl.
    destruct (user_with_id_Some _ _ _ Hu) as [_ Hid]. rewrite <- Hid in Hu.
    by rewrite (write_back_user_field User.email
                  (UserWrites.set_password _ u) u (users d) Hu eq_refl).
Qed.

(** * Routes with other stores and other answers

    The same state-and-exception monad, over any store [D] and any type of
    answer body [B]. *)
Module Route.

Record St (D B : Type) := mkSt {
  st_db : D;
  st_code : Z;
  st_sent : option (Z * B)
}.
Arguments mkSt {D B}.
Arguments st_db {D B}.
Arguments st_code {D B}.
Arguments st_sent {D B}.

Definition R (D B A : Type) : Type := St D B -> Result A * St D B.

Definition ret {D B A} (a : A) : R D B A := fun s => (Ok a, s).

Definition bind {D B A A'} (m : R D B A) (k : A -> R D B A') : R D B A' :=
  fun s => match m s with
           | (Ok a, s') => k a s'
           | (Throw e, s') => (Throw e, s')
           end.

Definition throw {D B A} (e : Exn) : R D B A := fun s => (Throw e, s).

Definition get {D B} : R D B D := fun s => (Ok (st_db s), s).

Definition put {D B} (d : D) : R D B unit :=
  fun s => (Ok tt, mkSt d (st_code s) (st_sent s)).

(** [res.status(c)] *)
Definition status {D B} (c : Z) : R D B unit :=
  fun s => (Ok tt, mkSt (st_db s) c (st_sent s)).

(** [res.send(b)] *)
Definition send {D B} (b : B) : R D B unit :=
  fun s => match st_sent s with
           | Some _ => (Throw ERR_HTTP_HEADERS_SENT, s)
           | None => (Ok tt, mkSt (st_db s) (st_code s) (Some (st_code s, b)))
           end.

Definition deref {D B A} (what : string) (o : option A) : R D B A :=
  match o with
  | Some a => ret a
  | None => throw (TypeError what)
  end.

(** A store operation of the order and user models, run inside a route. *)
Definition lift {B A} (m : M A) : R Db B A :=
  fun s => let (r, s') := m (mkState (st_db s) fresh_res) in
           (r, mkSt (db s') (st_code s) (st_sent s)).

Definition serve {D B} (h : R D B unit) (d : D) : Result unit * St D B :=
  h (mkSt d 200 None).

Definition outcome {D B} (r : Result unit * St D B) : Result unit := fst r.
Definition response {D B} (r : Result unit * St D B) : option (Z * B) :=
  st_sent (snd r).
Definition store {D B} (r : Result unit * St D B) : D := st_db (snd r).

End Route.

Declare Scope route_scope.
Delimit Scope route_scope with route.
Notation "x <- m ;; k" := (Route.bind m (fun x => k))
  (at level 100, m at next level, right associativity) : route_scope.
Notation "m ;; k" := (Route.bind m (fun _ => k))
  (at level 100, right associativity) : route_scope.

Ltac run_route :=
  unfold Route.serve, Route.outcome, Route.response, Route.store, Route.bind,
    Route.ret, Route.throw, Route.get, Route.put, Route.status, Route.send,
    Route.deref, Route.lift; simpl.

(** ** Toggle block *)

Inductive ToggleBody :=
| TText (s : string)
| TBool (b : bool).

(** [router.put('/toggleBlock/:userId', admin, ...)]: the handler, past the
    [admin] middleware. The save is started and the answer sent at once.
    Here the route parameter is the identifier it casts to, its spelling
    being the one tokens use, so that comparing the two strings is comparing
    the two identifiers; [put_toggleBlock_raw] below takes the parameter as
    the client spelt it. *)
Definition put_toggleBlock (req : Request ObjectId unit) : Route.R Db ToggleBody unit :=
  (let userId := params req in
   if bool_decide (userId = id (req_user req))
   then Route.status BAD_REQUEST ;; Route.send (TText "Can't block yourself!")
   else
     user <- Route.lift (UserModel.findById userId) ;;
     user <- Route.deref "user.isBlocked" user ;;
     let user := UserWrites.set_isBlocked (negb (User.isBlocked user)) user in
     Route.lift (UserWrites.save user) ;;
     Route.send (TBool (User.isBlocked user)))%route.

Lemma put_toggleBlock_cases (req : Request ObjectId unit) (d : Db) :
  Route.serve (put_toggleBlock req) d =
    if bool_decide (params req = id (req_user req))
    then (Ok tt, Route.mkSt d BAD_REQUEST
                   (Some (BAD_REQUEST, TText "Can't block yourself!")))
    else match user_with_id (params req) (users d) with
         | None => (Throw (TypeError "user.isBlocked"), Route.mkSt d 200 None)
         | Some u =>
           let u' := UserWrites.set_isBlocked (negb (User.isBlocked u)) u in
           (Ok tt,
            Route.mkSt (mkDb (UserWrites.write_back u' (users d)) (orders d)
                          (next_id d) (now d))
              200 (Some (200, TBool (negb (User.isBlocked u)))))
         end.
Proof.
  unfold put_toggleBlock. run_route.
  destruct (bool_decide (params req = id (req_user req))); simpl; [done|].
  unfold UserModel.findById, UserWrites.save. run.
  fold (user_with_id (params req) (users d)).
  destruct (user_with_id (params req) (users d)) as [u|]; simpl; [done|].
  by destruct d.
Qed.

Lemma write_back_user_restore (u u' : User.doc) (l : list User.doc) :
  user_with_id (User._id u) l = Some u -> User._id u' = User._id u ->
  UserWrites.write_back u (UserWrites.write_back u' l) = l.
Proof.
  intros Hu Hid. unfold user_with_id in Hu.
  induction l as [|y l IH]; simpl in *; [done|]. rewrite Hid.
  destruct (bool_decide (User._id y = User._id u)) eqn:E; simpl.
  - injection Hu as ->. by rewrite Hid, bool_decide_eq_true_2.
  - rewrite E. f_equal. by apply IH.
Qed.

(** Toggle block flips the blocked flag of the target and of no one else,
    and answers with the new flag; toggling twice puts the whole store back
    as it was. *)
Theorem put_toggleBlock_flips (req : Request ObjectId unit) (d : Db) (u : User.doc) :
  params req <> id (req_user req) ->
  user_with_id (params req) (users d) = Some u ->
  let r := Route.serve (put_toggleBlock req) d in
  let u' := UserWrites.set_isBlocked (negb (User.isBlocked u)) u in
  Route.response r = Some (200, TBool (negb (User.isBlocked u)))
  /\ user_with_id (params req) (users (Route.store r)) = Some u'
  /\ (forall j, j <> params req ->
        user_with_id j (users (Route.store r)) = user_with_id j (users d))
  /\ orders (Route.store r) = orders d
  /\ Route.store (Route.serve (put_toggleBlock req) (Route.store r)) = d.
Proof.
  intros Hne Hu r u'. subst r.
  destruct (user_with_id_Some _ _ _ Hu) as [_ Hid].
  rewrite put_toggleBlock_cases, bool_decide_eq_false_2, Hu by done.
  fold u'. unfold Route.response, Route.store. simpl.
  assert (Hu0 : user_with_id (User._id u') (users d) = Some u) by by rewrite <- Hid in Hu.
  destruct (write_back_user_found u' u (users d) Hu0) as [H1 H2].
  change (User._id u') with (User._id u) in H1, H2. rewrite Hid in H1, H2.
  split_and!; [done|done|done|done|].
  rewrite put_toggleBlock_cases, bool_decide_eq_false_2 by done. simpl. rewrite H1.
  simpl. rewrite negb_involutive.
  replace (UserWrites.set_isBlocked (User.isBlocked u) u') with u by by destruct u.
  rewrite (write_back_user_restore u u' (users d)); [by destruct d| |done].
  by rewrite Hid.
Qed.

Lemma put_toggleBlock_flips_witness :
  let r := Route.serve (put_toggleBlock (mkRequest Sample.root_token 10%N tt)) Sample.db in
  Route.response r = Some (200, TBool true)
  /\ Route.store (Route.serve (put_toggleBlock (mkRequest Sample.root_token 10%N tt))
                    (Route.store r))
     = Sample.db.
Proof.
  intros r.
  destruct (put_toggleBlock_flips (mkRequest Sample.root_token 10%N tt) Sample.db
              Sample.alice ltac:(discriminate) eq_refl) as (H1 & _ & _ & _ & H5).
  split; [exact H1|exact H5].
Defined.

(** Blocking does not reach login: after the toggle, a login with the
    target's email is answered exactly as before it, so a user who has just
    been blocked still logs in with their password. *)
Theorem put_toggleBlock_then_login
    (req : Request ObjectId unit) (d : Db) (u : User.doc) (p : string) :
  params req <> id (req_user req) ->
  user_with_id (params req) (users d) = Some u ->
  user_with_email (User.email u) (users d) = Some u ->
  response (serve (post_login (mkLoginBody (User.email u) p))
              (Route.store (Route.serve (put_toggleBlock req) d)))
  = response (serve (post_login (mkLoginBody (User.email u) p)) d)
  /\ (bcrypt_compare p (User.password u) = true ->
      response (serve (post_login (mkLoginBody (User.email u) p))
                  (Route.store (Route.serve (put_toggleBlock req) d)))
      = Some (mkResponse 200 (BUser (generateTokenResponse u)))).
Proof.
  intros Hne Hu He.
  destruct (user_with_id_Some _ _ _ Hu) as [_ Hid].
  rewrite put_toggleBlock_cases, bool_decide_eq_false_2, Hu by done.
  rewrite !post_login_run. unfold response, Route.store. simpl.
  rewrite <- Hid in Hu.
  rewrite (write_back_user_email
             (UserWrites.set_isBlocked (negb (User.isBlocked u)) u)
             u (users d) eq_refl eq_refl Hu He), He. simpl.
  split; [by destruct (bcrypt_compare p (User.password u))|]. by intros ->.
Qed.

Lemma put_toggleBlock_then_login_witness :
  response (serve (post_login (mkLoginBody "alice@example.com" "secret"))
              (Route.store (Route.serve
                              (put_toggleBlock (mkRequest Sample.root_token 10%N tt))
                              Sample.db)))
  = Some (mkResponse 200 (BUser (generateTokenResponse Sample.alice))).
Proof.
  exact (proj2 (put_toggleBlock_then_login (mkRequest Sample.root_token 10%N tt)
                  Sample.db Sample.alice "secret" ltac:(discriminate) eq_refl eq_refl)
           eq_refl).
Defined.

(** ** Toggle block, with the route parameter as the client spelt it *)

Section RawToggle.

(** How an identifier is spelt in a token ([req.user.id]), and the
    identifier, if any, that the store casts a route parameter to. Both
    belong to the libraries. *)
Variable id_string : ObjectId -> string.
Variable castObjectId : string -> option ObjectId.

(** [router.put('/toggleBlock/:userId', admin, ...)], past the [admin]
    middleware: the guard compares the parameter and the token's identifier
    as strings; the lookup casts the parameter. *)
Definition put_toggleBlock_raw (req : Request string unit)
  : Route.R Db ToggleBody unit :=
  (let userId := params req in
   if bool_decide (userId = id_string (id (req_user req)))
   then Route.status BAD_REQUEST ;; Route.send (TText "Can't block yourself!")
   else
     i <- match castObjectId userId with
          | Some i => Route.ret i
          | None => Route.throw CastError
          end ;;
     user <- Route.lift (UserModel.findById i) ;;
     user <- Route.deref "user.isBlocked" user ;;
     let user := UserWrites.set_isBlocked (negb (User.isBlocked user)) user in
     Route.lift (UserWrites.save user) ;;
     Route.send (TBool (User.isBlocked user)))%route.

Lemma put_toggleBlock_raw_cases (req : Request string unit) (d : Db) :
  Route.serve (put_toggleBlock_raw req) d =
    if bool_decide (params req = id_string (id (req_user req)))
    then (Ok tt, Route.mkSt d BAD_REQUEST
                   (Some (BAD_REQUEST, TText "Can't block yourself!")))
    else match castObjectId (params req) with
         | None => (Throw CastError, Route.mkSt d 200 None)
         | Some i =>
           match user_with_id i (users d) with
           | None => (Throw (TypeError "user.isBlocked"), Route.mkSt d 200 None)
           | Some u =>
             let u' := UserWrites.set_isBlocked (negb (User.isBlocked u)) u in
             (Ok tt,
              Route.mkSt (mkDb (UserWrites.write_back u' (users d)) (orders d)
                            (next_id d) (now d))
                200 (Some (200, TBool (negb (User.isBlocked u)))))
           end
         end.
Proof.
  unfold put_toggleBlock_raw. run_route.
  destruct (bool_decide (params req = id_string (id (req_user req)))); simpl; [done|].
  destruct (castObjectId (params req)) as [i|]; simpl; [|done].
  unfold UserModel.findById, UserWrites.save. run.
  fold (user_with_id i (users d)).
  destruct (user_with_id i (users d)) as [u|]; simpl; [done|].
  by destruct d.
Qed.

(** For a parameter that casts to [i] and is spelt as the token spells the
    caller's identifier exactly when [i] is that identifier, the route is
    [put_toggleBlock] on [i]. *)
Lemma put_toggleBlock_raw_as_cast (c : Claims) (raw : string) (i : ObjectId) (d : Db) :
  castObjectId raw = Some i ->
  (raw = id_string (id c) <-> i = id c) ->
  Route.serve (put_toggleBlock_raw (mkRequest c raw tt)) d
  = Route.serve (put_toggleBlock (mkRequest c i tt)) d.
Proof.
  intros Hcast Hiff. rewrite put_toggleBlock_raw_cases, put_toggleBlock_cases. simpl.
  rewrite Hcast. destruct (decide (i = id c)) as [Hi|Hi].
  - by rewrite !bool_decide_eq_true_2 by tauto.
  - by rewrite !bool_decide_eq_false_2 by tauto.
Qed.

(** The self-block guard of toggle block compares spellings, not
    identifiers. A parameter that is, character for character, the caller's
    identifier as the token has it is refused with 400 and nothing changes.
    Any other parameter passes the guard: one that does not cast to an
    identifier ends in the store's cast error and one that casts to an
    identifier without a user in a TypeError, both with nothing sent and the
    store as it was; one that casts to the identifier of a stored user
    flips that user's blocked flag, leaving the user's other fields alone,
    and answers with the new flag, also when that user is the caller. *)
Theorem put_toggleBlock_guard_by_spelling (req : Request string unit) (d : Db) :
  let r := Route.serve (put_toggleBlock_raw req) d in
  (params req = id_string (id (req_user req)) ->
   r = (Ok tt, Route.mkSt d BAD_REQUEST
                 (Some (BAD_REQUEST, TText "Can't block yourself!"))))
  /\ (params req <> id_string (id (req_user req)) ->
      (castObjectId (params req) = None ->
       r = (Throw CastError, Route.mkSt d 200 None))
      /\ (forall i, castObjectId (params req) = Some i ->
            user_with_id i (users d) = None ->
            r = (Throw (TypeError "user.isBlocked"), Route.mkSt d 200 None))
      /\ (forall i u, castObjectId (params req) = Some i ->
            user_with_id i (users d) = Some u ->
            Route.outcome r = Ok tt
            /\ Route.response r = Some (200, TBool (negb (User.isBlocked u)))
            /\ user_with_id i (users (Route.store r))
               = Some (User.mk (User._id u) (User.email u) (User.password u)
                         (User.name u) (User.address u) (User.isAdmin u)
                         (negb (User.isBlocked u))))).
Proof.
  intros r. subst r. rewrite put_toggleBlock_raw_cases. split.
  - intros H. by rewrite bool_decide_eq_true_2.
  - intros H. rewrite bool_decide_eq_false_2 by done. split_and!.
    + by intros ->.
    + by intros i -> ->.
    + intros i u -> Hu. rewrite Hu.
      unfold Route.outcome, Route.response, Route.store. simpl.
      split_and!; [done|done|].
      destruct (user_with_id_Some _ _ _ Hu) as [_ Hid]. rewrite <- Hid in Hu |- *.
      by destruct (write_back_user_found
                     (UserWrites.set_isBlocked (negb (User.isBlocked u)) u)
                     u (users d) Hu) as [H1 _].
Qed.

End RawToggle.

(** A spelling and a cast of the kind the libraries provide, to exercise the
    statement: identifiers are spelt as 24 lower-case hexadecimal digits,
    and a parameter of 24 hexadecimal digits, of either case, casts to the
    identifier it denotes. *)
Module IdSample.
Definition hex_digit (n : N) : ascii :=
  match String.get (N.to_nat n) "0123456789abcdef" with
  | Some c => c
  | None => "0"%char
  end.

Fixpoint hex_digits (k : nat) (n : N) (acc : string) : string :=
  match k with
  | O => acc
  | S k' => hex_digits k' (n / 16)%N (String (hex_digit (n mod 16)%N) acc)
  end.

Definition id_string (i : ObjectId) : string := hex_digits 24 i "".

Definition hex_value (c : ascii) : option N :=
  let n := N_of_ascii c in
  if ((48 <=? n) && (n <=? 57))%N then Some (n - 48)%N
  else if ((97 <=? n) && (n <=? 102))%N then Some (n - 87)%N
  else if ((65 <=? n) && (n <=? 70))%N then Some (n - 55)%N
  else None.

Fixpoint parse_hex (s : string) (acc : N) : option N :=
  match s with
  | EmptyString => Some acc
  | String c s' =>
    match hex_value c with
    | Some v => parse_hex s' (acc * 16 + v)%N
    | None => None
    end
  end.

Definition castObjectId (s : string) : option ObjectId :=
  if Nat.eqb (String.length s) 24 then parse_hex s 0 else None.
End IdSample.

Lemma put_toggleBlock_guard_by_spelling_witness :
  let r := Route.serve
             (put_toggleBlock_raw IdSample.id_string IdSample.castObjectId
                (mkRequest Sample.root_token "00000000000000000000000B" tt))
             Sample.db in
  IdSample.id_string (id Sample.root_token) = "00000000000000000000000b"
  /\ Route.response r = Some (200, TBool true)
  /\ user_with_id 11 (users (Route.store r))
     = Some (User.mk 11 "root@example.com" (Bcrypt 10 "hunter2") "Root" "2 Main St"
               true true).
Proof.
  intros r. split; [reflexivity|].
  destruct (proj2 (put_toggleBlock_guard_by_spelling
                     IdSample.id_string IdSample.castObjectId
                     (mkRequest Sample.root_token "00000000000000000000000B" tt)
                     Sample.db) ltac:(discriminate)) as (_ & _ & H).
  destruct (H 11%N Sample.root eq_refl eq_refl) as (_ & H2 & H3).
  split; [exact H2|exact H3].
Defined.

(** * [routers/food.router.js] *)

Module Food.
Record doc := mk {
  _id : ObjectId;
  name : string;
  price : Z;
  tags : list string;
  favorite : bool;
  imageUrl : string;
  origins : list string;
  cookTime : string
}.

#[global] Instance food_doc_eq_dec : EqDecision doc.
Proof. solve_decision. Defined.
End Food.

Record FoodDb := mkFoodDb {
  foods : list Food.doc;
  next_food_id : ObjectId
}.

(** [s.split(sep)] for a one-character separator: the pieces between the
    separators, empty pieces included; the empty string gives one empty
    piece. *)
Fixpoint split_on (sep : ascii) (s : string) : list string :=
  match s with
  | EmptyString => [EmptyString]
  | String c s' =>
    if Ascii.eqb c sep then EmptyString :: split_on sep s'
    else match split_on sep s' with
         | h :: t => String c h :: t
         | [] => [String c EmptyString]
         end
  end.

(** A body value the handler probes for a [split] method: a string has one,
    an array has none. *)
Inductive Splittable :=
| SString (s : string)
| SArray (l : list string).

(** The fields the food routes read from the body; [tags] and [origins]
    may be missing. *)
Record FoodFields := mkFoodFields {
  f_name : string;
  f_price : Z;
  f_tags : option Splittable;
  f_favorite : bool;
  f_imageUrl : string;
  f_origins : option Splittable;
  f_cookTime : string
}.

Record TagCount := mkTagCount {
  tag_name : string;
  tag_count : nat
}.

#[global] Instance TagCount_eq_dec : EqDecision TagCount.
Proof. solve_decision. Defined.

Inductive FoodBody :=
| FEmpty
| FNull
| FFood (f : Food.doc)
| FFoods (l : list Food.doc)
| FTags (l : list TagCount).

Definition FoodRoute := Route.R FoodDb FoodBody.

Local Open Scope route_scope.

Module FoodModel.
Import Food.

(** [new FoodModel({ ... })]: the given fields under a fresh identifier. *)
Definition new (n : string) (p : Z) (t : list string) (fav : bool)
    (img : string) (o : list string) (ct : string) : FoodRoute doc :=
  d <- Route.get ;;
  Route.put (mkFoodDb (foods d) (N.succ (next_food_id d))) ;;
  Route.ret (mk (next_food_id d) n p t fav img o ct).

(** [food.save()] on a new document. *)
Definition save (f : doc) : FoodRoute unit :=
  d <- Route.get ;;
  Route.put (mkFoodDb (foods d ++ [f]) (next_food_id d)).

(** [find({})] *)
Definition find_all : FoodRoute (list doc) :=
  d <- Route.get ;; Route.ret (foods d).

(** [find({ tags: tag })]: the foods whose tag array holds [tag]. *)
Definition find_by_tag (tag : string) : FoodRoute (list doc) :=
  d <- Route.get ;;
  Route.ret (List.filter (fun f => bool_decide (tag ∈ tags f)) (foods d)).

Definition findById (i : ObjectId) : FoodRoute (option doc) :=
  d <- Route.get ;;
  Route.ret (List.find (fun f => bool_decide (_id f = i)) (foods d)).

Fixpoint update_first (i : ObjectId) (upd : doc -> doc) (l : list doc) : list doc :=
  match l with
  | [] => []
  | x :: l' => if bool_decide (_id x = i) then upd x :: l' else x :: update_first i upd l'
  end.

(** [updateOne({ _id: i }, { ...fields })] *)
Definition updateOne (i : ObjectId) (n : string) (p : Z) (t : list string)
    (fav : bool) (img : string) (o : list string) (ct : string) : FoodRoute unit :=
  d <- Route.get ;;
  Route.put (mkFoodDb (update_first i (fun x => mk (_id x) n p t fav img o ct) (foods d))
               (next_food_id d)).

Fixpoint remove_first (i : ObjectId) (l : list doc) : list doc :=
  match l with
  | [] => []
  | x :: l' => if bool_decide (_id x = i) then l' else x :: remove_first i l'
  end.

(** [deleteOne({ _id: i })] *)
Definition deleteOne (i : ObjectId) : FoodRoute unit :=
  d <- Route.get ;;
  Route.put (mkFoodDb (remove_first i (foods d)) (next_food_id d)).

Definition countDocuments : FoodRoute nat :=
  d <- Route.get ;; Route.ret (length (foods d)).

(** The aggregation of the tags route: [$unwind] the tag arrays, [$group]
    by tag counting one per occurrence, [$project] to name and count, and
    sort by count, largest first. *)
Definition unwind_tags (l : list doc) : list string :=
  List.flat_map tags l.

Definition occurrences (t : string) (occ : list string) : nat :=
  length (List.filter (fun x => bool_decide (x = t)) occ).

Definition group_count (occ : list string) : list TagCount :=
  map (fun t => mkTagCount t (occurrences t occ)) (remove_dups occ).

Definition more_first (a b : TagCount) : Prop := (tag_count b <= tag_count a)%nat.
#[global] Instance more_first_dec a b : Decision (more_first a b).
Proof. unfold more_first. apply _. Defined.

Definition aggregate_tags : FoodRoute (list TagCount) :=
  d <- Route.get ;;
  Route.ret (merge_sort more_first (group_count (unwind_tags (foods d)))).
End FoodModel.

(** [tags.split ? tags.split(',') : tags]; reading [split] off a missing
    value throws. *)
Definition split_or_keep (what : string) (v : option Splittable)
  : FoodRoute (list string) :=
  match v with
  | None => Route.throw (TypeError what)
  | Some (SString s) => Route.ret (split_on "," s)
  | Some (SArray l) => Route.ret l
  end.

(** [router.get('/', ...)] *)
Definition get_foods : FoodRoute unit :=
  foods <- FoodModel.find_all ;;
  Route.send (FFoods foods).

(** [router.post('/', admin, ...)], past the [admin] middleware. *)
Definition post_food (body : FoodFields) : FoodRoute unit :=
  tags <- split_or_keep "tags.split" (f_tags body) ;;
  origins <- split_or_keep "origins.split" (f_origins body) ;;
  food <- FoodModel.new (f_name body) (f_price body) tags (f_favorite body)
            (f_imageUrl body) origins (f_cookTime body) ;;
  FoodModel.save food ;;
  Route.send (FFood food).

(** [router.put('/', admin, ...)]; the body carries the [id] beside the
    fields. *)
Definition put_food (id : ObjectId) (body : FoodFields) : FoodRoute unit :=
  tags <- split_or_keep "tags.split" (f_tags body) ;;
  origins <- split_or_keep "origins.split" (f_origins body) ;;
  FoodModel.updateOne id (f_name body) (f_price body) tags (f_favorite body)
    (f_imageUrl body) origins (f_cookTime body) ;;
  Route.send FEmpty.

(** [router.delete('/:foodId', admin, ...)] *)
Definition delete_food (foodId : ObjectId) : FoodRoute unit :=
  FoodModel.deleteOne foodId ;;
  Route.send FEmpty.

(** [router.get('/tags', ...)] *)
Definition get_food_tags : FoodRoute unit :=
  tags <- FoodModel.aggregate_tags ;;
  count <- FoodModel.countDocuments ;;
  let all := mkTagCount "All" count in
  let tags := all :: tags in
  Route.send (FTags tags).

(** [router.get('/tag/:tag', ...)] *)
Definition get_foods_by_tag (tag : string) : FoodRoute unit :=
  foods <- FoodModel.find_by_tag tag ;;
  Route.send (FFoods foods).

(** [router.get('/:foodId', ...)]: the answer is the lookup's result, also
    when that is [null]. *)
Definition get_food (foodId : ObjectId) : FoodRoute unit :=
  food <- FoodModel.findById foodId ;;
  Route.send (match food with Some f => FFood f | None => FNull end).

Local Close Scope route_scope.

(** ** Splitting the tag string *)

Lemma split_on_cons (sep : ascii) (s : string) :
  exists h t, split_on sep s = h :: t.
Proof.
  destruct s as [|c s]; simpl; [by eexists _, _|].
  destruct (Ascii.eqb c sep); [by eexists _, _|].
  destruct (split_on sep s); by eexists _, _.
Qed.

Lemma split_on_join (sep : ascii) (s : string) :
  String.concat (String sep EmptyString) (split_on sep s) = s.
Proof.
  induction s as [|c s IH]; simpl; [done|].
  destruct (split_on_cons sep s) as (h & t & Hs). rewrite Hs in *.
  rewrite <- IH. destruct (Ascii.eqb c sep) eqn:E.
  - apply Ascii.eqb_eq in E as ->. by destruct t.
  - by destruct t.
Qed.

Lemma split_on_pieces (sep : ascii) (s : string) :
  Forall (fun p => ~ In sep (list_ascii_of_string p)) (split_on sep s).
Proof.
  induction s as [|c s IH]; simpl.
  - apply Forall_singleton. by intros [].
  - destruct (Ascii.eqb c sep) eqn:E.
    + apply Forall_cons. split; [by intros []|done].
    + apply Ascii.eqb_neq in E.
      destruct (split_on sep s) as [|h t].
      * apply Forall_singleton. simpl. intros [?|[]]. congruence.
      * apply Forall_cons in IH as [Hh Ht]. apply Forall_cons. split; [|done].
        simpl. intros [?|?]; [congruence|done].
Qed.

(** The tag or origin list a present body value yields. *)
Definition listed (v : Splittable) : list string :=
  match v with
  | SString s => split_on "," s
  | SArray l => l
  end.

Lemma post_food_run (body : FoodFields) (d : FoodDb) :
  Route.serve (post_food body) d =
    match f_tags body, f_origins body with
    | None, _ => (Throw (TypeError "tags.split"), Route.mkSt d 200 None)
    | Some _, None => (Throw (TypeError "origins.split"), Route.mkSt d 200 None)
    | Some vt, Some vo =>
      let f := Food.mk (next_food_id d) (f_name body) (f_price body) (listed vt)
                 (f_favorite body) (f_imageUrl body) (listed vo) (f_cookTime body) in
      (Ok tt, Route.mkSt (mkFoodDb (foods d ++ [f]) (N.succ (next_food_id d)))
                200 (Some (200, FFood f)))
    end.
Proof.
  unfold post_food, split_or_keep, FoodModel.new, FoodModel.save. run_route.
  destruct (f_tags body) as [[s|l]|], (f_origins body) as [[s'|l']|]; done.
Qed.

Lemma put_food_run (i : ObjectId) (body : FoodFields) (d : FoodDb) :
  Route.serve (put_food i body) d =
    match f_tags body, f_origins body with
    | None, _ => (Throw (TypeError "tags.split"), Route.mkSt d 200 None)
    | Some _, None => (Throw (TypeError "origins.split"), Route.mkSt d 200 None)
    | Some vt, Some vo =>
      (Ok tt,
       Route.mkSt
         (mkFoodDb
            (FoodModel.update_first i
               (fun x => Food.mk (Food._id x) (f_name body) (f_price body) (listed vt)
                           (f_favorite body) (f_imageUrl body) (listed vo)
                           (f_cookTime body))
               (foods d))
            (next_food_id d))
         200 (Some (200, FEmpty)))
    end.
Proof.
  unfold put_food, split_or_keep, FoodModel.updateOne. run_route.
  destruct (f_tags body) as [[s|l]|], (f_origins body) as [[s'|l']|]; done.
Qed.

Definition food_with_id (i : ObjectId) (l : list Food.doc) : option Food.doc :=
  List.find (fun f => bool_decide (Food._id f = i)) l.

Lemma get_food_run (i : ObjectId) (d : FoodDb) :
  Route.serve (get_food i) d =
    (Ok tt, Route.mkSt d 200
              (Some (200, match food_with_id i (foods d) with
                          | Some f => FFood f
                          | None => FNull
                          end))).
Proof. reflexivity. Qed.

(** ** Creating and changing foods *)

(** A create or update request whose body lacks [tags], or has [tags] but
    lacks [origins], throws on reading [split] off the missing value;
    nothing is stored and nothing is sent. *)
Theorem food_writes_need_tags_and_origins (i : ObjectId) (body : FoodFields) (d : FoodDb) :
  (f_tags body = None ->
   Route.serve (post_food body) d
     = (Throw (TypeError "tags.split"), Route.mkSt d 200 None)
   /\ Route.serve (put_food i body) d
      = (Throw (TypeError "tags.split"), Route.mkSt d 200 None))
  /\ (f_tags body <> None -> f_origins body = None ->
      Route.serve (post_food body) d
        = (Throw (TypeError "origins.split"), Route.mkSt d 200 None)
      /\ Route.serve (put_food i body) d
         = (Throw (TypeError "origins.split"), Route.mkSt d 200 None)).
Proof.
  rewrite post_food_run, put_food_run. split.
  - by intros ->.
  - intros Ht ->. by destruct (f_tags body).
Qed.

Lemma food_writes_need_tags_and_origins_witness :
  Route.outcome
    (Route.serve (post_food (mkFoodFields "soup" 4 None false "soup.jpg"
                               (Some (SArray ["asia"])) "20"))
       (mkFoodDb [] 1))
  = Throw (TypeError "tags.split").
Proof.
  exact (f_equal Route.outcome
           (proj1 (proj1 (food_writes_need_tags_and_origins 1%N
                            (mkFoodFields "soup" 4 None false "soup.jpg"
                               (Some (SArray ["asia"])) "20")
                            (mkFoodDb [] 1)) eq_refl))).
Defined.

(** A food created with its tags given as one string is stored with the
    pieces of that string between the commas: joining the stored tags with
    commas gives the string back, there is at least one stored tag (for the
    empty string, one empty tag), and no stored tag has a comma in it. *)
Theorem post_food_splits_tag_string (body : FoodFields) (s : string)
    (vo : Splittable) (d : FoodDb) :
  f_tags body = Some (SString s) ->
  f_origins body = Some vo ->
  let r := Route.serve (post_food body) d in
  exists f,
    Route.response r = Some (200, FFood f)
    /\ foods (Route.store r) = (foods d ++ [f])%list
    /\ String.concat "," (Food.tags f) = s
    /\ Food.tags f <> []
    /\ Forall (fun t => ~ In ","%char (list_ascii_of_string t)) (Food.tags f)
    /\ (s = "" -> Food.tags f = [""]).
Proof.
  intros Ht Ho r. subst r. rewrite post_food_run, Ht, Ho.
  eexists. unfold Route.response, Route.store. simpl.
  split_and!; [done|done| | | |].
  - apply split_on_join.
  - destruct (split_on_cons "," s) as (h & t & ->). done.
  - apply split_on_pieces.
  - by intros ->.
Qed.

Lemma post_food_splits_tag_string_witness :
  exists f,
    Route.response
      (Route.serve (post_food (mkFoodFields "soup" 4 (Some (SString "hot,,thai")) false
                                 "soup.jpg" (Some (SArray ["asia"])) "20"))
         (mkFoodDb [] 1))
    = Some (200, FFood f)
    /\ String.concat "," (Food.tags f) = "hot,,thai".
Proof.
  destruct (post_food_splits_tag_string
              (mkFoodFields "soup" 4 (Some (SString "hot,,thai")) false
                 "soup.jpg" (Some (SArray ["asia"])) "20")
              "hot,,thai" (SArray ["asia"]) (mkFoodDb [] 1) eq_refl eq_refl)
    as (f & H1 & _ & H3 & _).
  exists f. split; [exact H1|exact H3].
Defined.

(** The invariant of the food collection: identifiers are unique and below
    the next one to be drawn. *)
Definition food_wf (d : FoodDb) : Prop :=
  NoDup (map Food._id (foods d))
  /\ Forall (fun f => (Food._id f < next_food_id d)%N) (foods d).

Section FoodLemmas.
Import Food.

Lemma food_with_id_None i l :
  food_with_id i l = None <-> (forall f, f ∈ l -> _id f <> i).
Proof.
  unfold food_with_id. split.
  - intros H f Hin Hid. apply list_elem_of_In in Hin.
    pose proof (find_none _ _ H f Hin) as Hb. simpl in Hb.
    apply bool_decide_eq_false in Hb. contradiction.
  - intros H. induction l as [|x l IH]; simpl; [done|].
    rewrite bool_decide_eq_false_2 by (apply H; left).
    apply IH. intros f Hf. apply H. by right.
Qed.

Lemma food_with_id_Some i l f :
  food_with_id i l = Some f -> f ∈ l /\ _id f = i.
Proof.
  unfold food_with_id. intros H. apply find_some in H as [Hin Hid].
  split; [by apply list_elem_of_In | by apply bool_decide_eq_true in Hid].
Qed.

Lemma food_with_id_app i l l' :
  food_with_id i l = None -> food_with_id i (l ++ l') = food_with_id i l'.
Proof.
  unfold food_with_id. induction l as [|x l IH]; simpl; [done|].
  destruct (bool_decide (_id x = i)); [done|]. apply IH.
Qed.

Lemma remove_first_other i j l :
  j <> i -> food_with_id j (FoodModel.remove_first i l) = food_with_id j l.
Proof.
  intros Hne. unfold food_with_id. induction l as [|x l IH]; simpl; [done|].
  destruct (bool_decide (_id x = i)) eqn:E; simpl.
  - apply bool_decide_eq_true in E. by rewrite bool_decide_eq_false_2 by congruence.
  - by rewrite IH.
Qed.

Lemma remove_first_gone i l :
  NoDup (map _id l) -> food_with_id i (FoodModel.remove_first i l) = None.
Proof.
  intros Hnd. apply food_with_id_None. induction l as [|x l IH]; simpl.
  - intros f Hf. by apply elem_of_nil in Hf.
  - apply NoDup_cons in Hnd as [Hx Hnd].
    destruct (bool_decide (_id x = i)) eqn:E.
    + apply bool_decide_eq_true in E. intros f Hf Hid. apply Hx.
      rewrite E, <- Hid. by apply list_elem_of_fmap_2.
    + apply bool_decide_eq_false in E. intros f Hf.
      apply elem_of_cons in Hf as [->|Hf]; [done|]. by apply IH.
Qed.

Lemma remove_first_absent i l :
  food_with_id i l = None -> FoodModel.remove_first i l = l.
Proof.
  unfold food_with_id. induction l as [|x l IH]; simpl; [done|].
  destruct (bool_decide (_id x = i)); [done|]. intros H. by rewrite IH.
Qed.

Lemma remove_first_length i l x :
  food_with_id i l = Some x -> S (length (FoodModel.remove_first i l)) = length l.
Proof.
  unfold food_with_id. induction l as [|y l IH]; simpl; [done|].
  destruct (bool_decide (_id y = i)); [done|]. intros H. simpl. by rewrite IH.
Qed.

Lemma update_first_absent i upd l :
  food_with_id i l = None -> FoodModel.update_first i upd l = l.
Proof.
  unfold food_with_id. induction l as [|x l IH]; simpl; [done|].
  destruct (bool_decide (_id x = i)); [done|]. intros H. by rewrite IH.
Qed.

Lemma update_first_found i upd l x :
  (forall y, _id (upd y) = _id y) ->
  food_with_id i l = Some x ->
  food_with_id i (FoodModel.update_first i upd l) = Some (upd x)
  /\ (forall j, j <> i ->
        food_with_id j (FoodModel.update_first i upd l) = food_with_id j l)
  /\ map _id (FoodModel.update_first i upd l) = map _id l.
Proof.
  intros Hupd. unfold food_with_id. induction l as [|y l IH]; simpl; [done|].
  destruct (bool_decide (_id y = i)) eqn:E; simpl.
  - intros [= ->]. apply bool_decide_eq_true in E. simpl.
    rewrite Hupd, bool_decide_eq_true_2 by done. split_and!; [done| |done].
    intros j Hj. by rewrite !bool_decide_eq_false_2 by congruence.
  - intros H. destruct (IH H) as (H1 & H2 & H3). simpl. rewrite E.
    split_and!; [done| |by rewrite H3]. intros j Hj. by rewrite (H2 j Hj).
Qed.
End FoodLemmas.

(** Create, then read. On a well-formed collection, the food a create
    request stores is what a fetch by its identifier returns, it is listed
    under each of its tags, and the collection stays well-formed. *)
Theorem post_food_then_get (body : FoodFields) (vt vo : Splittable) (d : FoodDb) :
  food_wf d ->
  f_tags body = Some vt ->
  f_origins body = Some vo ->
  let d' := Route.store (Route.serve (post_food body) d) in
  exists f,
    Route.response (Route.serve (post_food body) d) = Some (200, FFood f)
    /\ Food._id f = next_food_id d
    /\ Food.tags f = listed vt
    /\ Route.response (Route.serve (get_food (Food._id f)) d') = Some (200, FFood f)
    /\ (forall t, t ∈ Food.tags f ->
          exists l, Route.response (Route.serve (get_foods_by_tag t) d')
                    = Some (200, FFoods l) /\ f ∈ l)
    /\ food_wf d'.
Proof.
  intros [Hnd Hlt] Ht Ho d'. subst d'. rewrite post_food_run, Ht, Ho.
  eexists. unfold Route.response, Route.store. cbn [snd Route.st_sent Route.st_db].
  assert (Hfresh : food_with_id (next_food_id d) (foods d) = None).
  { apply food_with_id_None. intros f Hf. rewrite Forall_forall in Hlt.
    specialize (Hlt f Hf). lia. }
  split_and!; [done|done|done| | |].
  - rewrite get_food_run. cbn [snd Route.st_sent foods Food._id].
    rewrite (food_with_id_app _ _ _ Hfresh). unfold food_with_id. simpl.
    by rewrite bool_decide_eq_true_2.
  - intros t Hin. eexists. split; [reflexivity|].
    cbn [foods Route.st_db]. apply list_elem_of_In, filter_In. split.
    + apply in_or_app. right. by left.
    + by apply bool_decide_eq_true_2.
  - unfold food_wf. cbn [foods next_food_id]. rewrite map_app, Forall_app. split.
    + apply NoDup_app. split_and!; [done| |apply NoDup_singleton].
      intros i Hi Hi'. apply list_elem_of_singleton in Hi'. simpl in Hi'. subst i.
      apply list_elem_of_fmap in Hi as (x & Hx & Hin).
      rewrite Forall_forall in Hlt. specialize (Hlt x Hin). lia.
    + split; [eapply Forall_impl; [exact Hlt|simpl; intros; lia]|].
      apply Forall_singleton. simpl. lia.
Qed.

Module FoodSample.
Definition soup : Food.doc :=
  Food.mk 1 "soup" 4 ["hot"; "thai"] false "soup.jpg" ["asia"] "20".
Definition curry : Food.doc :=
  Food.mk 2 "curry" 7 ["hot"; "hot"; "rice"] true "curry.jpg" ["india"] "30".
Definition bread : Food.doc :=
  Food.mk 3 "bread" 2 [] false "bread.jpg" [] "10".
Definition db : FoodDb := mkFoodDb [soup; curry; bread] 4.
Definition salad : FoodFields :=
  mkFoodFields "salad" 5 (Some (SString "cold,green")) false "salad.jpg"
    (Some (SArray ["italy"])) "5".
End FoodSample.

Lemma post_food_then_get_witness :
  exists f,
    Route.response (Route.serve (post_food FoodSample.salad) FoodSample.db)
      = Some (200, FFood f)
    /\ Food._id f = 4%N
    /\ Food.tags f = ["cold"; "green"].
Proof.
  destruct (post_food_then_get FoodSample.salad (SString "cold,green") (SArray ["italy"])
              FoodSample.db ltac:(split; compute_done) eq_refl eq_refl)
    as (f & H1 & H2 & H3 & _).
  exists f. split_and!; [exact H1|exact H2|exact H3].
Defined.

(** An update replaces the name, price, tags, favorite flag, image, origins
    and cook time of the food with the given identifier, keeps its
    identifier and leaves every other food alone. For an identifier no food
    has, nothing changes; the answer is the same empty 200 either way. *)
Theorem put_food_effect (i : ObjectId) (body : FoodFields) (vt vo : Splittable)
    (d : FoodDb) :
  f_tags body = Some vt ->
  f_origins body = Some vo ->
  let r := Route.serve (put_food i body) d in
  Route.outcome r = Ok tt
  /\ Route.response r = Some (200, FEmpty)
  /\ map Food._id (foods (Route.store r)) = map Food._id (foods d)
  /\ (forall j, j <> i ->
        food_with_id j (foods (Route.store r)) = food_with_id j (foods d))
  /\ (food_with_id i (foods d) = None -> Route.store r = d)
  /\ (forall x, food_with_id i (foods d) = Some x ->
        food_with_id i (foods (Route.store r))
        = Some (Food.mk i (f_name body) (f_price body) (listed vt) (f_favorite body)
                  (f_imageUrl body) (listed vo) (f_cookTime body))).
Proof.
  intros Ht Ho r. subst r. rewrite put_food_run, Ht, Ho.
  unfold Route.outcome, Route.response, Route.store.
  cbn [fst snd Route.st_sent Route.st_db foods].
  set (upd := fun x : Food.doc => Food.mk (Food._id x) (f_name body) (f_price body)
                (listed vt) (f_favorite body) (f_imageUrl body) (listed vo)
                (f_cookTime body)).
  destruct (food_with_id i (foods d)) as [x|] eqn:Hx.
  - destruct (update_first_found i upd (foods d) x ltac:(done) Hx) as (H1 & H2 & H3).
    destruct (food_with_id_Some _ _ _ Hx) as [_ Hid].
    split_and!; [done|done|done|done|done|].
    intros ? [= <-]. rewrite H1. unfold upd. by rewrite Hid.
  - rewrite (update_first_absent i upd (foods d) Hx).
    split_and!; [done|done|done|done| |done]. intros _. by destruct d.
Qed.

Lemma put_food_effect_witness :
  Route.store (Route.serve (put_food 9 FoodSample.salad) FoodSample.db) = FoodSample.db
  /\ food_with_id 2
       (foods (Route.store (Route.serve (put_food 2 FoodSample.salad) FoodSample.db)))
     = Some (Food.mk 2 "salad" 5 ["cold"; "green"] false "salad.jpg" ["italy"] "5").
Proof.
  split.
  - exact (proj1 (proj2 (proj2 (proj2 (proj2
             (put_food_effect 9%N FoodSample.salad (SString "cold,green")
                (SArray ["italy"]) FoodSample.db eq_refl eq_refl))))) eq_refl).
  - exact (proj2 (proj2 (proj2 (proj2 (proj2
             (put_food_effect 2%N FoodSample.salad (SString "cold,green")
                (SArray ["italy"]) FoodSample.db eq_refl eq_refl)))))
             FoodSample.curry eq_refl).
Defined.

(** ** Deleting foods *)

(** Delete always answers an empty 200. With unique identifiers the food is
    gone afterwards, so that a fetch by its identifier answers [null], and
    every other food is still there; deleting an identifier no food has
    changes nothing. *)
Theorem delete_food_effect (i : ObjectId) (d : FoodDb) :
  NoDup (map Food._id (foods d)) ->
  let r := Route.serve (delete_food i) d in
  Route.outcome r = Ok tt
  /\ Route.response r = Some (200, FEmpty)
  /\ Route.response (Route.serve (get_food i) (Route.store r)) = Some (200, FNull)
  /\ (forall j, j <> i ->
        Route.response (Route.serve (get_food j) (Route.store r))
        = Route.response (Route.serve (get_food j) d))
  /\ (food_with_id i (foods d) = None -> Route.store r = d)
  /\ (forall x, food_with_id i (foods d) = Some x ->
        S (length (foods (Route.store r))) = length (foods d)).
Proof.
  intros Hnd r. subst r. rewrite !get_food_run.
  unfold Route.outcome, Route.response, Route.store. simpl.
  split_and!; [done|done| | | |].
  - by rewrite (remove_first_gone i (foods d) Hnd).
  - intros j Hj. pose proof (remove_first_other i j (foods d) Hj) as H.
    unfold food_with_id in H. by rewrite H.
  - intros Hx. rewrite (remove_first_absent i (foods d) Hx). by destruct d.
  - intros x Hx. by apply (remove_first_length i (foods d) x).
Qed.

Lemma delete_food_effect_witness :
  Route.response (Route.serve (get_food 2)
                    (Route.store (Route.serve (delete_food 2) FoodSample.db)))
  = Some (200, FNull).
Proof.
  exact (proj1 (proj2 (proj2 (delete_food_effect 2%N FoodSample.db
                                ltac:(compute_done))))).
Defined.

(** ** The tag counts *)

#[global] Instance more_first_total : Total FoodModel.more_first.
Proof. intros a b. unfold FoodModel.more_first. lia. Qed.

#[global] Instance more_first_trans : Transitive FoodModel.more_first.
Proof. intros a b c. unfold FoodModel.more_first. lia. Qed.

Lemma occurrences_pos (t : string) (occ : list string) :
  t ∈ occ <-> (0 < FoodModel.occurrences t occ)%nat.
Proof.
  unfold FoodModel.occurrences. induction occ as [|x occ IH]; simpl.
  - split; [intros H; by apply elem_of_nil in H|lia].
  - rewrite elem_of_cons, IH. destruct (bool_decide (x = t)) eqn:E; simpl.
    + apply bool_decide_eq_true in E. split; [lia|by left].
    + apply bool_decide_eq_false in E. split; [by intros [?|?]|by right].
Qed.

Lemma elem_of_group_count (t : string) (n : nat) (occ : list string) :
  mkTagCount t n ∈ FoodModel.group_count occ
  <-> (0 < n)%nat /\ n = FoodModel.occurrences t occ.
Proof.
  unfold FoodModel.group_count. rewrite list_elem_of_fmap. split.
  - intros (t' & [= -> ->] & Hin). rewrite elem_of_remove_dups in Hin.
    split; [by apply occurrences_pos|done].
  - intros [Hpos ->]. exists t. split; [done|].
    rewrite elem_of_remove_dups. by apply occurrences_pos.
Qed.

Lemma group_count_names (occ : list string) :
  map tag_name (FoodModel.group_count occ) = remove_dups occ.
Proof.
  unfold FoodModel.group_count. rewrite map_map. simpl. apply map_id.
Qed.

Lemma elem_of_unwind_tags (t : string) (l : list Food.doc) :
  t ∈ FoodModel.unwind_tags l <-> exists f, f ∈ l /\ t ∈ Food.tags f.
Proof.
  unfold FoodModel.unwind_tags. rewrite list_elem_of_In, in_flat_map.
  split; intros (f & Hf & Ht); exists f; by rewrite ?list_elem_of_In in *.
Qed.

(** The tags route answers with an "All" entry counting the foods, followed
    by one entry for each tag that some food carries, and for no other:
    each with the number of times the tag occurs in the tag arrays, the
    entries in order of falling count. The tags listed are exactly those
    for which the foods-by-tag route finds a food. The store is not
    changed. *)
Theorem get_food_tags_counts (d : FoodDb) :
  exists rest,
    Route.serve get_food_tags d
      = (Ok tt, Route.mkSt d 200
                  (Some (200, FTags (mkTagCount "All" (length (foods d)) :: rest))))
    /\ StronglySorted FoodModel.more_first rest
    /\ NoDup (map tag_name rest)
    /\ (forall t n, mkTagCount t n ∈ rest
          <-> (0 < n)%nat
              /\ n = FoodModel.occurrences t (FoodModel.unwind_tags (foods d)))
    /\ (forall t, t ∈ map tag_name rest
          <-> exists l f,
                Route.response (Route.serve (get_foods_by_tag t) d)
                  = Some (200, FFoods l)
                /\ f ∈ l).
Proof.
  exists (merge_sort FoodModel.more_first
            (FoodModel.group_count (FoodModel.unwind_tags (foods d)))).
  split; [reflexivity|].
  set (occ := FoodModel.unwind_tags (foods d)).
  pose proof (merge_sort_Permutation FoodModel.more_first (FoodModel.group_count occ))
    as Hperm.
  assert (Hnames : map tag_name (merge_sort FoodModel.more_first
                                   (FoodModel.group_count occ))
                   ≡ₚ remove_dups occ).
  { rewrite <- group_count_names. by apply Permutation_map. }
  split_and!.
  - apply StronglySorted_merge_sort; apply _.
  - rewrite Hnames. apply NoDup_remove_dups.
  - intros t n. rewrite Hperm. apply elem_of_group_count.
  - intros t. rewrite Hnames, elem_of_remove_dups. unfold occ.
    rewrite elem_of_unwind_tags. split.
    + intros (f & Hf & Ht). eexists _, f. split; [reflexivity|].
      apply list_elem_of_In, filter_In. split; [by apply list_elem_of_In|].
      by apply bool_decide_eq_true_2.
    + intros (l & f & Hl & Hf). injection Hl as <-.
      apply list_elem_of_In, filter_In in Hf as [Hf Ht].
      exists f. split; [by apply list_elem_of_In|].
      by apply bool_decide_eq_true in Ht.
Qed.

Lemma user_routes_keep_emails_lowercase_witness :
  emails_lowercase
    (store (serve (post_register false
                     (mkRegisterBody "Bob" "Bob@Example.com" "pw" "3 Main St"))
              Sample.db)).
Proof.
  refine (proj1 (user_routes_keep_emails_lowercase Sample.db _) false
            (mkRegisterBody "Bob" "Bob@Example.com" "pw" "3 Main St")).
  unfold emails_lowercase. simpl. repeat constructor.
Defined.

Lemma post_register_exact_duplicate_witness :
  serve (post_register true
           (mkRegisterBody "Alice" "alice@example.com" "other" "1 Main St"))
    Sample.db
  = (Ok tt, mkState Sample.db (mkRes BAD_REQUEST (Some user_exists))).
Proof.
  refine (post_register_exact_duplicate true
            (mkRegisterBody "Alice" "alice@example.com" "other" "1 Main St")
            Sample.db Sample.alice _ eq_refl).
  compute_done.
Defined.
